(** * gbp.command_wrappers: wrappers around external commands

    A shallow embedding of [gbp/command_wrappers.py].  Methods that log,
    launch processes, change the working directory or assign to [self] are
    functions in a state-and-exception monad; what a launched process does
    (the code it ends with, the file system it leaves) is a parameter of the
    development. *)

From stdpp Require Import base strings gmap list.
From Stdlib Require Import Ascii ZArith Lia DecimalString.

Open Scope string_scope.
Open Scope list_scope.
Open Scope Z_scope.

(** ** Python strings *)

Module Py.

(** [s.split(sep)] for a one-character separator. *)
Fixpoint split (sep : ascii) (s : string) : list string :=
  match s with
  | EmptyString => [EmptyString]
  | String c r =>
      if Ascii.eqb c sep then EmptyString :: split sep r
      else match split sep r with
           | h :: t => String c h :: t
           | [] => [String c EmptyString]
           end
  end.

(** [sep.join(l)] *)
Definition join (sep : string) (l : list string) : string :=
  String.concat sep l.

(** [s.startswith(p)] *)
Fixpoint startswith (p s : string) : bool :=
  match p, s with
  | EmptyString, _ => true
  | String _ _, EmptyString => false
  | String a p', String b s' => Ascii.eqb a b && startswith p' s'
  end.

(** [s.endswith(c)] for a one-character suffix. *)
Fixpoint endswith (c : ascii) (s : string) : bool :=
  match s with
  | EmptyString => false
  | String a EmptyString => Ascii.eqb a c
  | String _ r => endswith c r
  end.

(** Truth value of a string, and of an optional string ([None] or a
    string). *)
Definition truthy (s : string) : bool := negb (String.eqb s "").

Definition otruthy (o : option string) : bool :=
  match o with
  | None => false
  | Some s => truthy s
  end.

(** The double quote, as a string. *)
Definition dquote : string := String "034" "".

(** ["%d" % n] *)
Definition dec (n : Z) : string := NilZero.string_of_int (Z.to_int n).

(** [s * n] for a string [s]. *)
Fixpoint repeat (s : string) (n : nat) : string :=
  match n with
  | O => ""
  | S k => s +:+ repeat s k
  end.

Definition hex_digit (n : N) : ascii :=
  match n with
  | 0 => "0" | 1 => "1" | 2 => "2" | 3 => "3" | 4 => "4" | 5 => "5"
  | 6 => "6" | 7 => "7" | 8 => "8" | 9 => "9" | 10 => "a" | 11 => "b"
  | 12 => "c" | 13 => "d" | 14 => "e" | _ => "f"
  end%N%char.

Fixpoint contains (c : ascii) (s : string) : bool :=
  match s with
  | EmptyString => false
  | String a r => Ascii.eqb a c || contains c r
  end.

(** [repr(s)] of a byte string: single quotes unless the string has a
    single quote and no double quote; backslash, the quote, tab, newline
    and carriage return escaped; other bytes outside the printable range
    as [\xNN]. *)
Definition repr_char (quote c : ascii) : string :=
  let n := N_of_ascii c in
  if Ascii.eqb c quote || Ascii.eqb c "\"%char then String "\" (String c "")
  else if (n =? 9)%N then "\t"
  else if (n =? 10)%N then "\n"
  else if (n =? 13)%N then "\r"
  else if ((n <? 32) || (127 <=? n))%N
       then String "\" (String "x" (String (hex_digit (n / 16))
                                     (String (hex_digit (n mod 16)) "")))
  else String c "".

Fixpoint repr_body (quote : ascii) (s : string) : string :=
  match s with
  | EmptyString => ""
  | String c r => repr_char quote c +:+ repr_body quote r
  end.

Definition repr (s : string) : string :=
  let quote : ascii :=
    if contains "'" s && negb (contains "034" s) then "034"%char
    else "'"%char in
  String quote (repr_body quote s +:+ String quote "").

(** [repr(l)] of a list of strings, which is what ["%s" % l] prints. *)
Definition repr_list (l : list string) : string :=
  "[" +:+ join ", " (map repr l) +:+ "]".

End Py.

(** ** os.path (posixpath) *)

Module os_path.

(** [os.path.join(a, b)] *)
Definition join (a b : string) : string :=
  if Py.startswith "/" b then b
  else if String.eqb a "" || Py.endswith "/" a then a +:+ b
  else a +:+ "/" +:+ b.

Definition initial_slashes (path : string) : nat :=
  if Py.startswith "/" path then
    if Py.startswith "//" path && negb (Py.startswith "///" path)
    then 2%nat else 1%nat
  else 0%nat.

(** One round of the loop over the components of the path. *)
Definition norm_step (init : nat) (new_comps : list string) (comp : string)
  : list string :=
  if String.eqb comp "" || String.eqb comp "." then new_comps
  else if negb (String.eqb comp "..")
          || ((init =? 0)%nat && bool_decide (new_comps = []))
          || (negb (bool_decide (new_comps = []))
              && bool_decide (last new_comps = Some ".."))
       then new_comps ++ [comp]
       else removelast new_comps.

(** [os.path.normpath(path)] *)
Definition normpath (path : string) : string :=
  if String.eqb path "" then "."
  else
    let init := initial_slashes path in
    let comps := fold_left (norm_step init) (Py.split "/" path) [] in
    let path := Py.join "/" comps in
    let path := if (init =? 0)%nat then path
                else Py.repeat "/" init +:+ path in
    if String.eqb path "" then "." else path.

Definition isabs (path : string) : bool := Py.startswith "/" path.

(** [os.path.basename(p)]: what follows the last slash. *)
Definition basename (p : string) : string :=
  default "" (last (Py.split "/" p)).

End os_path.

(** ** Exceptions, the process state and the monad *)

(** Modelled from the spec: the application error [GbpError] of the module
    [errors], which is not among the sources: a single error kind, raised by
    configuration and precondition checks, that carries a human-readable
    message. *)
Definition GbpError_message : Type := string.

(** The exceptions the module raises or lets through.  [CommandExecFailed]
    is raised either bare or with a message; the errors of Python carry the
    text [str(e)] prints. *)
Inductive exn : Type :=
| CommandExecFailed (payload : option string)
| GbpError (msg : GbpError_message)
| OSError (msg : string)
| ValueError (msg : string)
| TypeError (msg : string).

Inductive level : Type := Debug | Err.

(** The command line handed to [subprocess]: an argument vector, or one
    string for the shell. *)
Inductive cmdline : Type :=
| Argv (argv : list string)
| ShellLine (line : string).

Inductive stream : Type := Inherited | Pipe.

(** One process creation, with the keyword arguments the module uses. *)
Record launch : Type := Launch {
  l_cmd : cmdline;
  l_cwd : option string;
  l_shell : bool;
  l_env : option (gmap string string);
  l_default_sigpipe : bool;
  l_stdin : stream;
  l_stdout : stream
}.

(** The file system, as far as the module looks at it, by canonical
    absolute path (there are no symbolic links): the directories that exist,
    those of them the process may not search, the paths that exist and are
    not directories, and the files [os.access(_, os.X_OK)] accepts.  A child
    process can replace all of it. *)
Record Files : Type := mkFiles {
  f_dirs : list string;
  f_locked : list string;
  f_others : list string;
  f_exec : list string
}.

(** What the module reads and changes outside its own objects: the working
    directory of the process, the file system, [os.environ], the lines
    handed to [log], and the process launches asked for so far. *)
Record World : Type := mkWorld {
  proc_cwd : string;
  files : Files;
  os_environ : gmap string string;
  log_lines : list (level * string);
  launched : list launch
}.

Definition fs_dirs (w : World) : list string := f_dirs (files w).

Definition fs_exec (w : World) : list string := f_exec (files w).

Definition M (S A : Type) : Type := S -> (exn + A) * S.

Definition ret {S A} (a : A) : M S A := fun s => (inr a, s).

Definition raise {S A} (e : exn) : M S A := fun s => (inl e, s).

Definition bind {S A B} (m : M S A) (k : A -> M S B) : M S B :=
  fun s => match m s with
           | (inr a, s') => k a s'
           | (inl e, s') => (inl e, s')
           end.

#[global] Instance M_ret {S} : MRet (M S) := fun A a => ret a.
#[global] Instance M_bind {S} : MBind (M S) := fun A B k m => bind m k.

(** [try: m  except: h] where the handler decides which exceptions it takes
    (and re-raises the others). *)
Definition try_except {S A} (m : M S A) (h : exn -> M S A) : M S A :=
  fun s => match m s with
           | (inr a, s') => (inr a, s')
           | (inl e, s') => h e s'
           end.

Definition gets {S A} (f : S -> A) : M S A := fun s => (inr (f s), s).

Definition modify {S} (f : S -> S) : M S unit := fun s => (inr tt, f s).

(** ** log, os and subprocess *)

Definition set_log (f : list (level * string) -> list (level * string))
  (w : World) : World :=
  mkWorld (proc_cwd w) (files w) (os_environ w) (f (log_lines w))
          (launched w).

Definition set_cwd (d : string) (w : World) : World :=
  mkWorld d (files w) (os_environ w) (log_lines w) (launched w).

Definition set_files (f : Files) (w : World) : World :=
  mkWorld (proc_cwd w) f (os_environ w) (log_lines w) (launched w).

(** The world once the launch [l] is on the trace and the file system is
    [f]. *)
Definition after_launch (l : launch) (f : Files) (w : World) : World :=
  mkWorld (proc_cwd w) f (os_environ w) (log_lines w) (launched w ++ [l]).

Module log.

(** Modelled from the spec: [log.debug(text)] of the module [log], which is
    not among the sources: the trace line emitted before an invocation; no
    return value, never raises. *)
Definition debug (msg : string) : M World unit :=
  modify (set_log (fun ls => ls ++ [(Debug, msg)])).

(** Modelled from the spec: [log.err(text)] of the module [log], which is
    not among the sources: the line emitted on a failure path; no return
    value, never raises. *)
Definition err (msg : string) : M World unit :=
  modify (set_log (fun ls => ls ++ [(Err, msg)])).

End log.

(** The error-level lines of a log. *)
Definition err_lines (ls : list (level * string)) : list string :=
  omap (fun l => match l with (Err, m) => Some m | _ => None end) ls.

Module os.

(** [os.getcwd()] *)
Definition getcwd : M World string := gets proc_cwd.

(** [os.path.abspath(path)] *)
Definition abspath (path : string) : M World string :=
  if os_path.isabs path then ret (os_path.normpath path)
  else cwd ← getcwd; ret (os_path.normpath (os_path.join cwd path)).

(** The errors of a path lookup, and the text Python prints for them. *)
Inductive errno : Type := ENOENT | EACCES | ENOTDIR.

Definition strerror (e : errno) : string :=
  match e with
  | ENOENT => "[Errno 2] No such file or directory"
  | EACCES => "[Errno 13] Permission denied"
  | ENOTDIR => "[Errno 20] Not a directory"
  end.

(** The directory above a canonical absolute path; the root is its own. *)
Definition parent (p : string) : string :=
  let up := Py.join "/" (removelast (Py.split "/" p)) in
  if String.eqb up "" then "/" else up.

(** One component of a path, looked up from the directory [at_]: the
    directory has to be searchable; [..] goes up; a name has to be a
    directory of the file system. *)
Definition enter (f : Files) (at_ : errno + string) (comp : string)
  : errno + string :=
  match at_ with
  | inl e => inl e
  | inr cur =>
      if String.eqb comp "" || String.eqb comp "." then inr cur
      else if bool_decide (cur ∈ f_locked f) then inl EACCES
      else if String.eqb comp ".." then inr (parent cur)
      else
        let next := os_path.join cur comp in
        if bool_decide (next ∈ f_dirs f) then inr next
        else if bool_decide (next ∈ f_others f) then inl ENOTDIR
        else inl ENOENT
  end.

(** The directory a path leads to, component after component, from the
    root for an absolute path and from [cwd] otherwise; the directory
    reached has to be searchable too. *)
Definition resolve (f : Files) (cwd path : string) : errno + string :=
  if String.eqb path "" then inl ENOENT
  else
    let start := if os_path.isabs path then "/" else cwd in
    match fold_left (enter f) (Py.split "/" path) (inr start) with
    | inl e => inl e
    | inr t => if bool_decide (t ∈ f_locked f) then inl EACCES else inr t
    end.

(** [os.chdir(path)] *)
Definition chdir (path : string) : M World unit :=
  fun w =>
    match resolve (files w) (proc_cwd w) path with
    | inr target => (inr tt, set_cwd target w)
    | inl e => (inl (OSError (strerror e +:+ ": " +:+ Py.repr path)), w)
    end.

(** [os.access(path, os.X_OK)] *)
Definition access_X_OK (path : string) : M World bool :=
  gets (fun w => bool_decide (path ∈ fs_exec w)).

End os.

(** The values a format string can be given. *)
Inductive pyval : Type :=
| PyNone
| PyStr (s : string)
| PyList (l : list string)
| PyObject.

(** A child process, as [subprocess.Popen] hands it back: what
    [communicate()] gives (the captured standard output, or the error it
    raises), what [wait()] returns, and what the process has made of the
    file system by the time it has ended. *)
Record proc : Type := Proc {
  p_communicate : exn + string;
  p_wait : Z;
  p_effect : Files -> Files
}.

(** ** Objects and methods *)

(** The attributes of a [Command]. *)
Record Command : Type := mkCommand {
  cmd : string;
  args : list string;
  run_error : string;
  shell : bool;
  retcode : Z;
  cwd : option string;
  env : option (gmap string string)
}.

(** A method runs on its object and on the rest of the process. *)
Record state (O : Type) : Type := mkState { self : O; world : World }.
Arguments mkState {O} _ _.
Arguments self {O} _.
Arguments world {O} _.

Definition in_world {O A} (m : M World A) : M (state O) A :=
  fun s => let (r, w) := m (world s) in (r, mkState (self s) w).

(** A method of the base class run on an object of a subclass. *)
Definition as_base {O B A} (get : O -> B) (set : B -> O -> O)
  (m : M (state B) A) : M (state O) A :=
  fun s => let (r, s') := m (mkState (get (self s)) (world s)) in
           (r, mkState (set (self s') (self s)) (world s')).

Definition with_retcode (rc : Z) (c : Command) : Command :=
  mkCommand (cmd c) (args c) (run_error c) (shell c) rc (cwd c) (env c).

Definition with_run_error (msg : string) (c : Command) : Command :=
  mkCommand (cmd c) (args c) msg (shell c) (retcode c) (cwd c) (env c).

Definition set_retcode (rc : Z) : M (state Command) unit :=
  modify (fun s => mkState (with_retcode rc (self s)) (world s)).

Definition set_run_error (msg : string) : M (state Command) unit :=
  modify (fun s => mkState (with_run_error msg (self s)) (world s)).

(** [C(...).method(...)]: an object is built and a method called on it. *)
Definition new_then {O A} (init : M World O) (method : M (state O) A)
  : M World A :=
  fun w =>
    match init w with
    | (inr o, w') => let (r, s) := method (mkState o w') in (r, world s)
    | (inl e, w') => (inl e, w')
    end.

(** The attributes of a [GitTag]: those of the command, and its own. *)
Record GitTag : Type := mkGitTag {
  tag_command : Command;
  sign_tag : bool;
  keyid : option string
}.

Definition with_tag_command (c : Command) (t : GitTag) : GitTag :=
  mkGitTag c (sign_tag t) (keyid t).

(** The attributes of the wrappers that keep an archive and a directory:
    [UnpackTarArchive], [PackTarArchive] and [UnpackZipArchive]. *)
Record Archive : Type := mkArchive {
  archive_command : Command;
  archive : string;
  dir : string
}.

Definition with_archive_command (c : Command) (o : Archive) : Archive :=
  mkArchive c (archive o) (dir o).

(** The attributes of a [CatenateTarArchive]. *)
Record CatenateTarArchive : Type := mkCatenateTarArchive {
  catenate_command : Command;
  catenate_archive : string
}.

Definition with_catenate_command (c : Command) (o : CatenateTarArchive)
  : CatenateTarArchive :=
  mkCatenateTarArchive c (catenate_archive o).

(** The attributes of a [RemoveTree]. *)
Record RemoveTree : Type := mkRemoveTree {
  rm_command : Command;
  tree : string
}.

(** ** A small operating system, for the examples *)

Module Sample.

(** A process in [/src]; [/root] may not be searched, [/src/setup.py] is a
    file, and there is no [pristine-tar]. *)
Definition world0 : World :=
  mkWorld "/src"
    (mkFiles ["/"; "/bin"; "/root"; "/src"; "/tmp"] ["/root"]
             ["/bin/true"; "/src/setup.py"] ["/bin/true"])
    ∅ [] [].

(** Children that all end with the code [rc]; they do not touch the
    directories. *)
Definition exits (rc : Z) : launch -> World -> (string + Z) * Files :=
  fun _ w => (inr rc, files w).

(** The machine of the doctests: [/bin/true] ends with 0 whatever its
    arguments, and there is no other program. *)
Definition doctest_os : launch -> World -> (string + Z) * Files :=
  fun l w =>
    match l_cmd l with
    | Argv ("/bin/true" :: _) => (inr 0, files w)
    | _ => (inl "[Errno 2] No such file or directory", files w)
    end.

(** A machine where [git] ends with 128 and every other program with 0. *)
Definition git_fails : launch -> World -> (string + Z) * Files :=
  fun l w =>
    match l_cmd l with
    | Argv ("git" :: _) => (inr 128, files w)
    | _ => (inr 0, files w)
    end.

(** Children that end with 0 and leave a file system without [/src], and
    without [pristine-tar]. *)
Definition rm_src : launch -> World -> (string + Z) * Files :=
  fun _ w =>
    (inr 0, mkFiles ["/"; "/bin"; "/root"; "/tmp"] ["/root"] ["/bin/true"] []).

(** Two [tar] processes: the consumer prints [out]; they end with [rc1] and
    [rc2]. *)
Definition tar_pipe (out : string) (rc1 rc2 : Z)
  : launch -> option proc -> World -> exn + proc :=
  fun _ up _ =>
    match up with
    | None => inr (Proc (inr "") rc1 id)
    | Some _ => inr (Proc (inr out) rc2 id)
    end.

(** A machine without [tar]. *)
Definition no_tar : launch -> option proc -> World -> exn + proc :=
  fun _ _ _ => inl (OSError "[Errno 2] No such file or directory").

(** A formatter that knows the default message of [GitTag] only. *)
Definition tagging : string -> gmap string pyval -> exn + string :=
  fun template d =>
    match String.eqb template "Tagging %(version)s", d !! "version" with
    | true, Some (PyStr v) => inr ("Tagging " +:+ v)
    | _, _ => inl (ValueError "unsupported format string")
    end.

(** The same process on a machine that has [pristine-tar]. *)
Definition world_pt : World :=
  mkWorld "/src"
    (mkFiles ["/"; "/bin"; "/src"; "/tmp"; "/usr"; "/usr/bin"] []
             ["/bin/true"; "/usr/bin/pristine-tar"]
             ["/bin/true"; "/usr/bin/pristine-tar"])
    ∅ [] [].

(** The object [Command("ls", ["-l"])] builds. *)
Definition ls : Command :=
  mkCommand "ls" ["-l"] "Couldn't run 'ls -l'" false 1 None None.

Definition newline : string := String "010" "".

End Sample.

(** ** The wrappers, over an arbitrary operating system *)

Section Wrappers.

(** [run_child l w]: the launch [l], made in the state [w], waited for.
    Either the OS cannot create the process ([inl], with the text of the
    [OSError]), or it runs to its end and [subprocess.call] returns its
    code, negative when a signal ended it.  The second component is the
    file system the child leaves. *)
Variable run_child : launch -> World -> (string + Z) * Files.

(** [spawn l up w]: the launch [l] made by [subprocess.Popen], its standard
    input fed by the process [up] when there is one. *)
Variable spawn : launch -> option proc -> World -> exn + proc.

(** [py_format template d]: the string [template % d] for a dictionary
    [d], or the exception the formatting raises. *)
Variable py_format : string -> gmap string pyval -> exn + string.

(** [subprocess.call(cmd, cwd=, shell=, env=, preexec_fn=default_sigpipe)]:
    the launch it makes, and the call itself, which raises [OSError] or
    returns the code of the finished process. *)
Definition call_launch (cmd : cmdline) (cwd : option string)
  (shell : bool) (env : option (gmap string string)) : launch :=
  Launch cmd cwd shell env true Inherited Inherited.

Definition subprocess_call (cmd : cmdline) (cwd : option string)
  (shell : bool) (env : option (gmap string string)) : M World Z :=
  fun w =>
    let l := call_launch cmd cwd shell env in
    match run_child l w with
    | (inr rc, f) => (inr rc, after_launch l f w)
    | (inl e, _) => (inl (OSError e), after_launch l (files w) w)
    end.

(** [subprocess.Popen(argv, stdin=, stdout=, cwd=)] *)
Definition popen_launch (argv : list string) (stdin stdout : stream)
  (cwd : option string) : launch :=
  Launch (Argv argv) cwd false None false stdin stdout.

Definition subprocess_Popen (argv : list string) (stdin : option proc)
  (stdout : stream) (cwd : option string) : M World proc :=
  fun w =>
    let l := popen_launch argv
               (match stdin with Some _ => Pipe | None => Inherited end)
               stdout cwd in
    (spawn l stdin w, after_launch l (files w) w).

(** [p.communicate()[0]]: the output is read to its end and the process
    waited for, so what it did to the file system is there. *)
Definition Popen_communicate (p : proc) : M World string :=
  fun w =>
    match p_communicate p with
    | inr out => (inr out, set_files (p_effect p (files w)) w)
    | inl e => (inl e, w)
    end.

(** [p.wait()] on a process that has not been waited for. *)
Definition Popen_wait (p : proc) : M World Z :=
  fun w => (inr (p_wait p), set_files (p_effect p (files w)) w).

(** [p.wait()] on a process that [communicate()] has waited for: the code
    it has kept. *)
Definition Popen_wait_again (p : proc) : M World Z := ret (p_wait p).

(** *** class Command *)

(** [Command.__init__(self, cmd, args=[], shell=False, extra_env=None,
    cwd=None)].  The extra environment is laid over a copy of
    [os.environ]. *)
Definition Command_init (cmd_ : string) (args_ : list string)
  (shell_ : bool) (extra_env : option (gmap string string))
  (cwd_ : option string) : M World Command :=
  environ ← gets os_environ;
  ret (mkCommand cmd_ args_
         ("Couldn't run '" +:+ Py.join " " ([cmd_] ++ args_) +:+ "'")
         shell_ 1 cwd_
         (match extra_env with
          | Some extra => Some (extra ∪ environ)
          | None => None
          end)).

(** The command line [Command.__call] builds. *)
Definition Command_cmdline (c : Command) (a : list string) : cmdline :=
  let line := [cmd c] ++ args c ++ a in
  if shell c then ShellLine (Py.join " " line) else Argv line.

(** [Command.__call(self, args)] *)
Definition Command__call (a : list string) : M (state Command) Z :=
  c ← gets self;
  in_world (log.debug (cmd c +:+ " " +:+ Py.repr_list (args c)
                       +:+ " " +:+ Py.repr_list a));;
  in_world (subprocess_call (Command_cmdline c a) (cwd c) (shell c) (env c)).

(** What the operating system answers to the launch a call of the command
    with the arguments [a] makes in the state [s]: the launch, the world it
    is made in (the debug line is out), and the answer. *)
Definition Command_launch (c : Command) (a : list string) : launch :=
  call_launch (Command_cmdline c a) (cwd c) (shell c) (env c).

Definition launch_world (c : Command) (a : list string) (w : World) : World :=
  set_log (fun ls => ls ++ [(Debug, cmd c +:+ " " +:+ Py.repr_list (args c)
                                    +:+ " " +:+ Py.repr_list a)]) w.

Definition child_outcome (a : list string) (s : state Command)
  : (string + Z) * Files :=
  run_child (Command_launch (self s) a) (launch_world (self s) a (world s)).

(** [Command.__run(self, args)] *)
Definition Command__run (a : list string) : M (state Command) Z :=
  c ← gets self;
  rc ← try_except
         (rc ← Command__call a;
          (if rc <? 0
           then in_world (log.err (cmd c +:+ " was terminated by signal "
                                   +:+ Py.dec (- rc)))
           else if rc >? 0
           then in_world (log.err (cmd c +:+ " returned " +:+ Py.dec rc))
           else ret tt);;
          ret rc)
         (fun e => match e with
                   | OSError m =>
                       in_world (log.err ("Execution failed: " +:+ m));;
                       ret 1
                   | _ => raise e
                   end);
  (if negb (rc =? 0)
   then c' ← gets self; in_world (log.err (run_error c'))
   else ret tt);;
  set_retcode rc;;
  ret rc.

(** [Command.__call__(self, args=[])], the strict form. *)
Definition Command__call__ (a : list string) : M (state Command) unit :=
  rc ← Command__run a;
  if negb (rc =? 0) then raise (CommandExecFailed None) else ret tt.

(** [Command.call(self, args)], the lenient form. *)
Definition Command_call (a : list string) : M (state Command) Z :=
  try_except (Command__call a)
    (fun e => match e with
              | OSError m =>
                  raise (CommandExecFailed
                           (Some ("Execution failed: " +:+ m)))
              | _ => raise e
              end).

(** *** class RunAtCommand(Command) *)

(** [list] applied to the starred arguments on the extra positional arguments: no argument gives
    the empty list, one argument (a list of strings) a copy of it, more
    are a [TypeError]. *)
Definition list_star {S} (varargs : list (list string))
  : M S (list string) :=
  match varargs with
  | [] => ret []
  | [a] => ret a
  | _ => raise (TypeError ("list() takes at most 1 argument ("
                           +:+ Py.dec (Z.of_nat (length varargs))
                           +:+ " given)"))
  end.

(** [RunAtCommand.__call__(self, dir, *args)]; [dir] defaults to the
    current directory. *)
Definition RunAtCommand__call__ (dir : string)
  (varargs : list (list string)) : M (state Command) unit :=
  curdir ← in_world (os.abspath ".");
  try_except
    (in_world (os.chdir dir);;
     a ← list_star varargs;
     Command__call__ a;;
     in_world (os.chdir curdir))
    (fun e => in_world (os.chdir curdir);; raise e).

(** *** class PristineTar(Command) *)

Definition PristineTar_cmd : string := "/usr/bin/pristine-tar".
Definition PristineTar_branch : string := "pristine-tar".

(** [PristineTar.__init__(self)] *)
Definition PristineTar_init : M World Command :=
  ok ← os.access_X_OK PristineTar_cmd;
  if negb ok
  then raise (GbpError (PristineTar_cmd
                        +:+ " not found - cannot use pristine-tar"))
  else Command_init PristineTar_cmd [] false None None.

(** [PristineTar.commit(self, archive, branch)] *)
Definition PristineTar_commit (archive branch : string)
  : M (state Command) unit :=
  set_run_error ("Couldn't commit to " +:+ Py.dquote +:+ branch +:+ Py.dquote);;
  Command__call__ ["commit"; archive; branch].

(** [PristineTar.checkout(self, archive)] *)
Definition PristineTar_checkout (archive : string)
  : M (state Command) unit :=
  set_run_error ("Couldn't checkout " +:+ Py.dquote
                 +:+ os_path.basename archive +:+ Py.dquote);;
  Command__call__ ["checkout"; archive].

(** *** class GitCommand(Command) and class GitTag(GitCommand) *)

(** [GitCommand.__init__(self, cmd, args=[], **kwargs)] *)
Definition GitCommand_init (cmd_ : string) (args_ : list string)
  (shell_ : bool) (extra_env : option (gmap string string))
  (cwd_ : option string) : M World Command :=
  c ← Command_init "git" ([cmd_] ++ args_) shell_ extra_env cwd_;
  ret (with_run_error ("Couldn't run git " +:+ cmd_) c).

(** [GitTag.__init__(self, sign_tag=False, keyid=None)] *)
Definition GitTag_init (sign_tag_ : bool) (keyid_ : option string)
  : M World GitTag :=
  c ← GitCommand_init "tag" [] false None None;
  ret (mkGitTag c sign_tag_ keyid_).

(** The local variables of [GitTag.__call__] that [msg % locals()] can
    name. *)
Definition GitTag_locals (t : GitTag) (version msg : string)
  (commit : option string) (sign_opts : list string)
  : gmap string pyval :=
  <["self" := PyObject]>
    (<["version" := PyStr version]>
       (<["msg" := PyStr msg]>
          (<["commit" := match commit with
                         | Some c => PyStr c
                         | None => PyNone
                         end]>
             (<["sign_opts" := PyList sign_opts]> ∅)))).

(** [GitTag.__call__(self, version, msg="Tagging %(version)s",
    commit=None)] *)
Definition GitTag__call__ (version msg : string) (commit : option string)
  : M (state GitTag) unit :=
  as_base tag_command with_tag_command
    (set_run_error ("Couldn't tag " +:+ Py.dquote +:+ version
                    +:+ Py.dquote));;
  t ← gets self;
  let sign_opts :=
    if sign_tag t then
      if Py.otruthy (keyid t)
      then ["-u"; default "" (keyid t)]
      else ["-s"]
    else [] in
  m ← (fun s => (py_format msg (GitTag_locals t version msg commit
                                              sign_opts), s));
  let c := sign_opts ++ ["-m"; m; version] in
  let c := if Py.otruthy commit then c ++ [default "" commit] else c in
  as_base tag_command with_tag_command (Command__call__ c).

(** *** copy_from *)

(** [copy_from(orig_dir, filters=[])] *)
Definition copy_from (orig_dir : string) (filters : list string)
  : M World (list string) :=
  let exclude := map (fun filter => "--exclude=" +:+ filter) filters in
  '(p1, p2, files) ←
    try_except
      (p1 ← subprocess_Popen (["tar"] ++ exclude ++ ["-cSpf"; "-"; "."])
                             None Pipe (Some orig_dir);
       p2 ← subprocess_Popen ["tar"; "-xvSpf"; "-"] (Some p1) Pipe None;
       out ← Popen_communicate p2;
       ret (p1, p2, Py.split "010" out))
      (fun e => match e with
                | OSError err => raise (GbpError ("Cannot copy files: "
                                                  +:+ err))
                | ValueError err => raise (GbpError ("Cannot copy files: "
                                                     +:+ err))
                | _ => raise e
                end);
  rc1 ← Popen_wait p1;
  failed ← (if negb (rc1 =? 0) then ret true
            else rc2 ← Popen_wait_again p2; ret (negb (rc2 =? 0)));
  if (failed : bool)
  then raise (GbpError "Cannot copy files, pipe failed.")
  else ret (map os_path.normpath
              (List.filter (fun f => negb (bool_decide (files = []))) files)).

(** *** The wrappers of tar, rm, dch, dpkg-source and unzip *)

(** [UnpackTarArchive.__init__(self, archive, dir, filters=[],
    compression=None)] *)
Definition UnpackTarArchive_init (archive_ dir_ : string)
  (filters : list string) (compression : option string) : M World Archive :=
  let exclude := map (fun filter => "--exclude=" +:+ filter) filters in
  let compression :=
    if negb (Py.otruthy compression) then "-a"
    else default "" compression in
  c ← Command_init "tar"
        (exclude ++ ["-C"; dir_; compression; "-xf"; archive_])
        false None None;
  ret (mkArchive
         (with_run_error ("Couldn't unpack " +:+ Py.dquote +:+ archive_
                          +:+ Py.dquote) c)
         archive_ dir_).

(** [PackTarArchive.__init__(self, archive, dir, dest, filters=[],
    compression=None)] *)
Definition PackTarArchive_init (archive_ dir_ dest : string)
  (filters : list string) (compression : option string) : M World Archive :=
  let exclude := map (fun filter => "--exclude=" +:+ filter) filters in
  let compression :=
    if negb (Py.otruthy compression) then "-a"
    else default "" compression in
  c ← Command_init "tar"
        (exclude ++ ["-C"; dir_; compression; "-cf"; archive_; dest])
        false None None;
  ret (mkArchive
         (with_run_error ("Couldn't repack " +:+ Py.dquote +:+ archive_
                          +:+ Py.dquote) c)
         archive_ dir_).

(** [CatenateTarArchive.__init__(self, archive, **kwargs)]; the keyword
    arguments are those of [Command.__init__]. *)
Definition CatenateTarArchive_init (archive_ : string) (shell_ : bool)
  (extra_env : option (gmap string string)) (cwd_ : option string)
  : M World CatenateTarArchive :=
  c ← Command_init "tar" ["-A"; "-f"; archive_] shell_ extra_env cwd_;
  ret (mkCatenateTarArchive c archive_).

(** [CatenateTarArchive.__call__(self, target)] *)
Definition CatenateTarArchive__call__ (target : string)
  : M (state CatenateTarArchive) unit :=
  as_base catenate_command with_catenate_command (Command__call__ [target]).

(** [RemoveTree.__init__(self, tree)] *)
Definition RemoveTree_init (tree_ : string) : M World RemoveTree :=
  c ← Command_init "rm" ["-rf"; tree_] false None None;
  ret (mkRemoveTree
         (with_run_error ("Couldn't remove " +:+ Py.dquote +:+ tree_
                          +:+ Py.dquote) c)
         tree_).

(** [Dch.__init__(self, version, msg)] *)
Definition Dch_init (version : string) (msg : option string)
  : M World Command :=
  let args_ := ["-v"; version] in
  let args_ := if Py.otruthy msg then args_ ++ [default "" msg] else args_ in
  c ← Command_init "dch" args_ false None None;
  ret (with_run_error "Dch failed." c).

(** [DpkgSourceExtract.__init__(self)] *)
Definition DpkgSourceExtract_init : M World Command :=
  Command_init "dpkg-source" ["-x"] false None None.

(** [DpkgSourceExtract.__call__(self, dsc, output_dir)] *)
Definition DpkgSourceExtract__call__ (dsc output_dir : string)
  : M (state Command) unit :=
  set_run_error ("Couldn't extract " +:+ Py.dquote +:+ dsc +:+ Py.dquote);;
  Command__call__ [dsc; output_dir].

(** [UnpackZipArchive.__init__(self, archive, dir)] *)
Definition UnpackZipArchive_init (archive_ dir_ : string) : M World Archive :=
  c ← Command_init "unzip" ["-q"; archive_; "-d"; dir_] false None None;
  ret (mkArchive
         (with_run_error ("Couldn't unpack " +:+ Py.dquote +:+ archive_
                          +:+ Py.dquote) c)
         archive_ dir_).

(** *** The other wrappers of git *)

(** [GitClone.__init__(self)] *)
Definition GitClone_init : M World Command :=
  c ← GitCommand_init "clone" [] false None None;
  ret (with_run_error "Couldn't clone git repository" c).

(** [GitBranch.__init__(self)] *)
Definition GitBranch_init : M World Command :=
  GitCommand_init "branch" [] false None None.

(** [GitBranch.__call__(self, branch, remote=None)] *)
Definition GitBranch__call__ (branch : string) (remote : option string)
  : M (state Command) unit :=
  set_run_error ("Couldn't create branch " +:+ Py.dquote +:+ branch
                 +:+ Py.dquote);;
  let options := [branch] in
  let options :=
    if Py.otruthy remote then options ++ [default "" remote] else options in
  Command__call__ options.

(** [GitFetch.__init__(self, remote=None)] *)
Definition GitFetch_init (remote : option string) : M World Command :=
  let opts := [] in
  let opts :=
    if Py.otruthy remote then opts ++ [default "" remote] else opts in
  GitCommand_init "fetch" opts false None None.

(** [GitMerge.__init__(self, branch, verbose=False)]; [verbose] indexes the
    pair of option lists. *)
Definition GitMerge_init (branch : string) (verbose : bool)
  : M World Command :=
  let verbose := if verbose then [] else ["--no-summary"] in
  c ← GitCommand_init "merge" ([branch] ++ verbose) false None None;
  ret (with_run_error ("Couldn't merge from " +:+ Py.dquote +:+ branch
                       +:+ Py.dquote) c).

(** ** Vocabulary of the statements *)

(** The world after the launch of a call: the debug line is out, the launch
    is on the trace, the file system is [f]. *)
Definition launched_world (c : Command) (a : list string) (f : Files)
  (w : World) : World :=
  after_launch (Command_launch c a) f (launch_world c a w).

(** The world with the error-level lines [ms] added to the log. *)
Definition add_errs (ms : list string) (w : World) : World :=
  set_log (fun ls => ls ++ map (fun m => (Err, m)) ms) w.

(** What [__run] makes of the answer of the operating system: the
    error-level lines it reports, *)
Definition report (c : Command) (o : string + Z) : list string :=
  match o with
  | inl e => ["Execution failed: " +:+ e; run_error c]
  | inr rc =>
      if rc <? 0
      then [cmd c +:+ " was terminated by signal " +:+ Py.dec (- rc);
            run_error c]
      else if rc >? 0
      then [cmd c +:+ " returned " +:+ Py.dec rc; run_error c]
      else []
  end.

(** the code it returns, *)
Definition result_code (o : string + Z) : Z :=
  match o with
  | inl _ => 1
  | inr rc => rc
  end.

(** and the file system afterwards. *)
Definition files_after (w : World) (o : (string + Z) * Files) : Files :=
  match o with
  | (inl _, _) => files w
  | (inr _, f) => f
  end.

(** The error-level lines of the log of a state. *)
Definition log_err_lines {O} (s : state O) : list string :=
  err_lines (log_lines (world s)).

(** The two launches of [copy_from], and the world the second is made in. *)
Definition tar_producer (orig_dir : string) (filters : list string) : launch :=
  popen_launch
    (["tar"] ++ map (fun filter => "--exclude=" +:+ filter) filters
     ++ ["-cSpf"; "-"; "."])
    Inherited Pipe (Some orig_dir).

Definition tar_consumer : launch :=
  popen_launch ["tar"; "-xvSpf"; "-"] Pipe Pipe None.

Definition producer_started (orig_dir : string) (filters : list string)
  (w : World) : World :=
  after_launch (tar_producer orig_dir filters) (files w) w.

(** What the two [except] clauses make of an exception. *)
Definition copy_error (e : exn) : exn :=
  match e with
  | OSError err => GbpError ("Cannot copy files: " +:+ err)
  | ValueError err => GbpError ("Cannot copy files: " +:+ err)
  | _ => e
  end.

(** [normpath] of a nonempty path, from its leading slashes and its
    components. *)
Definition norm_finish (init : nat) (comps : list string) : string :=
  let path := Py.join "/" comps in
  let path := if (init =? 0)%nat then path
              else Py.repeat "/" init +:+ path in
  if String.eqb path "" then "." else path.

(** The directory [c] can be entered by its name, which it keeps: in the
    file system [f], [os.chdir(c)] succeeds and ends in [c]. *)
Definition reachable (f : Files) (c : string) : Prop :=
  os.resolve f "/" c = inr c.

(** The working directory is what [os.getcwd()] gives for a live directory:
    an absolute path in normal form, by which the directory can be
    entered. *)
Definition canonical_cwd (w : World) : Prop :=
  os_path.isabs (proc_cwd w) = true
  /\ os_path.normpath (proc_cwd w) = proc_cwd w
  /\ reachable (files w) (proc_cwd w).

(** ** Strings and paths *)

Ltac unfold_monad :=
  unfold mbind, M_bind, bind, ret, raise, try_except, gets, modify,
    in_world, as_base, log.debug, log.err, set_retcode, set_run_error in *.

#[local] Arguments Ascii.eqb : simpl never.

Lemma split_not_nil (sep : ascii) (s : string) : Py.split sep s <> [].
Proof.
  destruct s as [| c r]; simpl; [discriminate |].
  destruct (Ascii.eqb c sep); [discriminate |].
  destruct (Py.split sep r); discriminate.
Qed.

Lemma split_app_sep (sep : ascii) (a b : string) :
  Py.split sep (a +:+ String sep b) = Py.split sep a ++ Py.split sep b.
Proof.
  induction a as [| x a IH]; simpl.
  - rewrite Ascii.eqb_refl. reflexivity.
  - destruct (Ascii.eqb x sep); rewrite IH; [reflexivity |].
    pose proof (split_not_nil sep a) as Hne.
    destruct (Py.split sep a) as [| h t]; [contradiction | reflexivity].
Qed.

Lemma append_assoc (a b c : string) : a +:+ (b +:+ c) = (a +:+ b) +:+ c.
Proof.
  induction a as [| x a IH]; [reflexivity |].
  change (String x (a +:+ (b +:+ c)) = String x ((a +:+ b) +:+ c)).
  rewrite IH. reflexivity.
Qed.

Lemma endswith_inv (c : ascii) (s : string) :
  Py.endswith c s = true -> exists s', s = s' +:+ String c "".
Proof.
  induction s as [| a s IH]; simpl; [discriminate |].
  destruct s as [| b s].
  - intros H%Ascii.eqb_eq. subst a. exists "". reflexivity.
  - intros H. destruct (IH H) as [s' Hs']. exists (String a s').
    simpl. rewrite Hs'. reflexivity.
Qed.

Lemma normpath_nonempty (a : ascii) (r : string) :
  os_path.normpath (String a r) =
    norm_finish (os_path.initial_slashes (String a r))
      (fold_left (os_path.norm_step (os_path.initial_slashes (String a r)))
         (Py.split "/" (String a r)) []).
Proof. reflexivity. Qed.

(** Joining [.] to an absolute path does not change what it normalizes
    to. *)
Lemma normpath_join_curdir (c : string) :
  os_path.isabs c = true ->
  os_path.normpath (os_path.join c ".") = os_path.normpath c.
Proof.
  intros Habs. destruct c as [| a r]; [discriminate |].
  revert Habs. unfold os_path.isabs. simpl.
  destruct (Ascii.eqb_spec "/" a) as [<- |]; [intros _ | discriminate].
  unfold os_path.join.
  change (Py.startswith "/" ".") with false. cbn iota.
  change (String.eqb (String "/" r) "") with false.
  rewrite orb_false_l.
  destruct (Py.endswith "/" (String "/" r)) eqn:Hend.
  - destruct (endswith_inv _ _ Hend) as [s' Hs'].
    change (String "/" r +:+ ".") with (String "/" (r +:+ ".")).
    rewrite !normpath_nonempty.
    assert (os_path.initial_slashes (String "/" (r +:+ "."))
            = os_path.initial_slashes (String "/" r)) as ->.
    { destruct r as [| b r]; [reflexivity |].
      destruct r as [| b' r].
      - unfold os_path.initial_slashes. simpl.
        destruct (Ascii.eqb "/" b); reflexivity.
      - reflexivity. }
    f_equal.
    change (String "/" (r +:+ ".")) with (String "/" r +:+ ".").
    rewrite Hs'.
    rewrite <- append_assoc.
    change ("/" +:+ ".") with (String "/" ".").
    rewrite !split_app_sep, !fold_left_app. reflexivity.
  - replace (String "/" r +:+ "/" +:+ ".")
      with (String "/" r +:+ String "/" ".") by reflexivity.
    change (String "/" r +:+ String "/" ".")
      with (String "/" (r +:+ String "/" ".")).
    rewrite !normpath_nonempty.
    assert (os_path.initial_slashes (String "/" (r +:+ String "/" "."))
            = os_path.initial_slashes (String "/" r)) as ->.
    { destruct r as [| b r]; [discriminate |].
      destruct r as [| b' r].
      - unfold os_path.initial_slashes. simpl.
        destruct (Ascii.eqb_spec "/" b) as [<- |]; [discriminate | reflexivity].
      - reflexivity. }
    f_equal.
    change (String "/" (r +:+ String "/" "."))
      with (String "/" r +:+ String "/" ".").
    rewrite split_app_sep, fold_left_app. reflexivity.
Qed.

Lemma join_absolute (a c : string) :
  os_path.isabs c = true -> os_path.join a c = c.
Proof.
  unfold os_path.join, os_path.isabs. intros ->. reflexivity.
Qed.

(** ** Properties of [Command] *)

Lemma err_lines_app (l1 l2 : list (level * string)) :
  err_lines (l1 ++ l2) = err_lines l1 ++ err_lines l2.
Proof. apply omap_app. Qed.

Lemma err_lines_add_errs (ms : list string) (w : World) :
  err_lines (log_lines (add_errs ms w)) = err_lines (log_lines w) ++ ms.
Proof.
  unfold add_errs. simpl. rewrite err_lines_app. f_equal.
  induction ms as [| m ms IH]; [reflexivity |].
  change (m :: err_lines (map (fun m => (Err, m)) ms) = m :: ms).
  rewrite IH. reflexivity.
Qed.

Lemma err_lines_launched_world c a dirs w :
  err_lines (log_lines (launched_world c a dirs w)) = err_lines (log_lines w).
Proof.
  unfold launched_world, launch_world. simpl.
  rewrite err_lines_app. simpl. apply app_nil_r.
Qed.

Lemma Command__call_spec (a : list string) (s : state Command) :
  Command__call a s =
    (match fst (child_outcome a s) with
     | inr rc => inr rc
     | inl e => inl (OSError e)
     end,
     mkState (self s)
       (launched_world (self s) a
          (files_after (world s) (child_outcome a s)) (world s))).
Proof.
  unfold Command__call, child_outcome, launched_world, subprocess_call,
    Command_launch, launch_world, files_after.
  unfold_monad. simpl.
  destruct (run_child _ _) as [[e | rc] dirs]; reflexivity.
Qed.

Lemma Command__run_spec (a : list string) (s : state Command) :
  Command__run a s =
    let o := child_outcome a s in
    (inr (result_code (fst o)),
     mkState (with_retcode (result_code (fst o)) (self s))
       (add_errs (report (self s) (fst o))
          (launched_world (self s) a (files_after (world s) o) (world s)))).
Proof.
  unfold Command__run.
  unfold mbind at 1, M_bind at 1, bind at 1, gets at 1.
  unfold mbind at 1, M_bind at 1, bind at 1, try_except at 1.
  unfold mbind at 1, M_bind at 1, bind at 1.
  rewrite Command__call_spec. cbn zeta.
  destruct (child_outcome a s) as [[e | rc] dirs]; cbn [fst snd].
  - unfold_monad. simpl. do 2 f_equal. unfold add_errs, set_log. simpl.
    rewrite <- app_assoc. reflexivity.
  - unfold_monad. simpl.
    destruct (rc <? 0) eqn:Hneg; [| destruct (rc >? 0) eqn:Hpos]; simpl.
    + assert ((rc =? 0) = false) as -> by lia. simpl.
      do 2 f_equal. unfold add_errs, set_log. simpl.
      rewrite <- app_assoc. reflexivity.
    + assert ((rc =? 0) = false) as -> by lia. simpl.
      do 2 f_equal. unfold add_errs, set_log. simpl.
      rewrite <- app_assoc. reflexivity.
    + assert (rc = 0) as -> by lia. simpl.
      do 2 f_equal. unfold add_errs, set_log. simpl.
      rewrite app_nil_r. reflexivity.
Qed.

Lemma Command__call__spec (a : list string) (s : state Command) :
  Command__call__ a s =
    (if result_code (fst (child_outcome a s)) =? 0
     then inr tt else inl (CommandExecFailed None),
     snd (Command__run a s)).
Proof.
  unfold Command__call__.
  unfold mbind at 1, M_bind at 1, bind at 1.
  rewrite Command__run_spec. cbn zeta. cbn [snd].
  destruct (result_code _ =? 0); reflexivity.
Qed.

Lemma Command_call_spec (a : list string) (s : state Command) :
  Command_call a s =
    (match fst (child_outcome a s) with
     | inr rc => inr rc
     | inl e => inl (CommandExecFailed (Some ("Execution failed: " +:+ e)))
     end,
     mkState (self s)
       (launched_world (self s) a
          (files_after (world s) (child_outcome a s)) (world s))).
Proof.
  unfold Command_call, try_except. rewrite Command__call_spec.
  destruct (fst (child_outcome a s)); reflexivity.
Qed.

(** C1: the strict form [Command.__call__].  When the child exits with 0
    the call returns and the log gets no error-level line.  When the child
    exits with N > 0, or is ended by a signal, or cannot be launched, the
    call raises one bare [CommandExecFailed] (no payload) and the log gets
    two error-level lines, the first naming the command and N (or the signal
    number, or the OS error).  The call raises exactly when the result of
    [__run] is nonzero, and raises nothing else. *)
Theorem strict_call_raises_iff_nonzero (a : list string) (s : state Command) :
  let r := Command__call__ a s in
  let c := self s in
  (fst (child_outcome a s) = inr 0 ->
     fst r = inr tt /\ log_err_lines (snd r) = log_err_lines s)
  /\ (forall N, 0 < N -> fst (child_outcome a s) = inr N ->
        fst r = inl (CommandExecFailed None)
        /\ log_err_lines (snd r) =
             log_err_lines s
             ++ [cmd c +:+ " returned " +:+ Py.dec N; run_error c])
  /\ (forall N, N < 0 -> fst (child_outcome a s) = inr N ->
        fst r = inl (CommandExecFailed None)
        /\ log_err_lines (snd r) =
             log_err_lines s
             ++ [cmd c +:+ " was terminated by signal " +:+ Py.dec (- N);
                 run_error c])
  /\ (forall e, fst (child_outcome a s) = inl e ->
        fst r = inl (CommandExecFailed None)
        /\ log_err_lines (snd r) =
             log_err_lines s ++ ["Execution failed: " +:+ e; run_error c])
  /\ (exists rc, fst (Command__run a s) = inr rc
        /\ (rc = 0 -> fst r = inr tt)
        /\ (rc <> 0 -> fst r = inl (CommandExecFailed None))).
Proof.
  cbn zeta. unfold log_err_lines.
  rewrite Command__call__spec, Command__run_spec. cbn zeta. cbn [fst snd world].
  rewrite err_lines_add_errs, err_lines_launched_world.
  split; [| split; [| split; [| split]]].
  - intros ->. simpl. rewrite app_nil_r. split; reflexivity.
  - intros N HN ->. simpl.
    assert ((N <? 0) = false) as -> by lia.
    assert ((N >? 0) = true) as -> by lia.
    assert ((N =? 0) = false) as -> by lia. split; reflexivity.
  - intros N HN ->. simpl.
    assert ((N <? 0) = true) as -> by lia.
    assert ((N =? 0) = false) as -> by lia. split; reflexivity.
  - intros e ->. simpl. split; reflexivity.
  - exists (result_code (fst (child_outcome a s))).
    split; [reflexivity |]. split; intros H.
    + rewrite H. reflexivity.
    + assert ((result_code (fst (child_outcome a s)) =? 0) = false) as ->
        by lia.
      reflexivity.
Qed.


(** C2: the lenient form [Command.call].  Whatever code N the child ends
    with (zero, positive, or negative for a signal), the call returns N,
    raises nothing and adds no error-level line to the log.  It raises only
    when the operating system cannot launch the child; the exception is then
    a [CommandExecFailed] whose payload is the text of the OS error after
    ["Execution failed: "]; no error-level line is logged then either. *)
Theorem lenient_call_returns_code (a : list string) (s : state Command) :
  let r := Command_call a s in
  (forall N, fst (child_outcome a s) = inr N ->
     fst r = inr N /\ log_err_lines (snd r) = log_err_lines s)
  /\ (forall e, fst (child_outcome a s) = inl e ->
        fst r = inl (CommandExecFailed (Some ("Execution failed: " +:+ e)))
        /\ log_err_lines (snd r) = log_err_lines s)
  /\ (forall x, fst r = inl x ->
        exists e, fst (child_outcome a s) = inl e).
Proof.
  cbn zeta. unfold log_err_lines.
  rewrite Command_call_spec. cbn [fst snd world].
  rewrite err_lines_launched_world.
  split; [| split].
  - intros N ->. split; reflexivity.
  - intros e ->. split; reflexivity.
  - intros x. destruct (fst (child_outcome a s)) as [e | rc].
    + exists e. reflexivity.
    + discriminate.
Qed.

(** C4: the command line handed to the process launch.  For an invoker
    built by [Command.__init__] with the program [cmd_] and the fixed
    arguments [fixed], a call with the arguments [a], through either form,
    makes exactly one launch, and its command line is the vector
    [[cmd_] ++ fixed ++ a], or in shell mode that vector joined by single
    spaces into one string. *)
Theorem dispatched_argv (cmd_ : string) (fixed : list string)
  (shell_ : bool) (extra_env : option (gmap string string))
  (cwd_ : option string) (w0 w : World) (a : list string) :
  exists c,
    Command_init cmd_ fixed shell_ extra_env cwd_ w0 = (inr c, w0)
    /\ let expected :=
         if shell_ then ShellLine (Py.join " " ([cmd_] ++ fixed ++ a))
         else Argv ([cmd_] ++ fixed ++ a) in
       map l_cmd (launched (world (snd (Command__call__ a (mkState c w)))))
         = map l_cmd (launched w) ++ [expected]
       /\ map l_cmd (launched (world (snd (Command_call a (mkState c w)))))
         = map l_cmd (launched w) ++ [expected].
Proof.
  eexists. split; [reflexivity |]. cbn zeta.
  rewrite Command__call__spec, Command__run_spec, Command_call_spec.
  cbn zeta. cbn [fst snd world self].
  unfold add_errs, launched_world, launch_world, Command_launch,
    Command_cmdline, call_launch.
  simpl. rewrite !map_app. simpl.
  destruct shell_; split; reflexivity.
Qed.

(** C9: a freshly constructed invoker has the last-result field 1, whatever
    it was constructed with; so have the objects the constructors of the
    subclasses build. *)
Theorem fresh_retcode_is_1 (cmd_ : string) (fixed : list string)
  (shell_ : bool) (extra_env : option (gmap string string))
  (cwd_ : option string) (sign : bool) (kid : option string) (w : World) :
  (exists c, Command_init cmd_ fixed shell_ extra_env cwd_ w = (inr c, w)
             /\ retcode c = 1)
  /\ (exists c, GitCommand_init cmd_ fixed shell_ extra_env cwd_ w = (inr c, w)
                /\ retcode c = 1)
  /\ (exists t, GitTag_init sign kid w = (inr t, w)
                /\ retcode (tag_command t) = 1)
  /\ (fst (PristineTar_init w)
        = inl (GbpError (PristineTar_cmd
                         +:+ " not found - cannot use pristine-tar"))
      \/ exists c, fst (PristineTar_init w) = inr c /\ retcode c = 1).
Proof.
  split; [| split; [| split]].
  - eexists. split; reflexivity.
  - eexists. split; reflexivity.
  - eexists. split; reflexivity.
  - unfold PristineTar_init, os.access_X_OK. unfold_monad. simpl.
    destruct (bool_decide _); simpl.
    + right. eexists. split; reflexivity.
    + left. reflexivity.
Qed.

(** C7, as the code has it: the last-result field is assigned by [__run]
    only.  After a call through the strict form it is the code the child
    ended with (negative for a signal), or 1 when the child could not be
    launched; a call through the lenient form leaves the object as it
    was. *)
Theorem last_result_field (a : list string) (s : state Command) :
  (forall N, fst (child_outcome a s) = inr N ->
     retcode (self (snd (Command__call__ a s))) = N)
  /\ (forall e, fst (child_outcome a s) = inl e ->
        retcode (self (snd (Command__call__ a s))) = 1)
  /\ self (snd (Command_call a s)) = self s.
Proof.
  rewrite Command__call__spec, Command__run_spec, Command_call_spec.
  cbn zeta. cbn [fst snd self].
  split; [| split].
  - intros N ->. reflexivity.
  - intros e ->. reflexivity.
  - reflexivity.
Qed.

(** C8: [PristineTar.__init__] when [os.access] refuses the executable:
    the constructor raises [GbpError], which is not the exception of the
    invocation layer, and the state of the process is untouched: nothing
    was launched. *)
Theorem PristineTar_needs_executable (w : World) :
  PristineTar_cmd ∉ fs_exec w ->
  PristineTar_init w
    = (inl (GbpError ("/usr/bin/pristine-tar not found - "
                      +:+ "cannot use pristine-tar")), w)
  /\ launched (snd (PristineTar_init w)) = launched w
  /\ forall payload, fst (PristineTar_init w) <> inl (CommandExecFailed payload).
Proof.
  intros Hno.
  unfold PristineTar_init, os.access_X_OK. unfold_monad. simpl.
  rewrite bool_decide_eq_false_2 by exact Hno. simpl.
  split; [reflexivity |]. split; [reflexivity |].
  intros payload. discriminate.
Qed.


(** ** Properties of [GitTag] *)

(** The launch of [GitTag.__call__], for any tagger: the command line of
    the underlying command with the signing options, the rendered message,
    the version and the commit. *)
Lemma GitTag__call__dispatch (t : GitTag) (version msg : string)
  (commit : option string) (m : string) (w : World) (opts : list string) :
  (if sign_tag t
   then if Py.otruthy (keyid t) then ["-u"; default "" (keyid t)] else ["-s"]
   else []) = opts ->
  py_format msg (GitTag_locals t version msg commit opts) = inr m ->
  map l_cmd (launched (world (snd (GitTag__call__ version msg commit
                                     (mkState t w)))))
  = map l_cmd (launched w)
    ++ [Command_cmdline (tag_command t)
          (opts ++ ["-m"; m; version]
           ++ (if Py.otruthy commit then [default "" commit] else []))].
Proof.
  intros Hopts Hm.
  unfold GitTag__call__.
  unfold mbind at 1, M_bind at 1, bind at 1.
  unfold as_base at 1, set_run_error at 1, modify at 1.
  cbn [self world fst snd].
  unfold mbind at 1, M_bind at 1, bind at 1, gets at 1.
  cbn [self sign_tag keyid with_tag_command].
  rewrite Hopts.
  unfold mbind at 1, M_bind at 1, bind at 1.
  cbn [self world with_tag_command sign_tag keyid tag_command].
  unfold GitTag_locals in *. cbn [sign_tag keyid] in *.
  rewrite Hm.
  unfold as_base. cbn [self world tag_command].
  rewrite Command__call__spec, Command__run_spec.
  cbn zeta. cbn [fst snd world self].
  unfold add_errs, launched_world, launch_world, Command_launch, call_launch.
  simpl. rewrite !map_app. simpl.
  destruct (Py.otruthy commit); rewrite <- ?app_assoc; reflexivity.
Qed.

(** C10: the signing options of [GitTag.__call__], for a tagger built by
    [GitTag.__init__(sign_tag, keyid)] and a message that renders to [m].
    With signing off, the launch is [git tag -m m version (commit)] whatever
    the key id: no [-s], no [-u keyid].  With signing on and a key id that
    is set (not [None], not empty) the options are [-u keyid]; with signing
    on and no key id they are [-s]. *)
Theorem GitTag_signing_options (sign : bool) (kid : option string)
  (w0 w : World) (t : GitTag) (version msg : string)
  (commit : option string) (m : string) :
  fst (GitTag_init sign kid w0) = inr t ->
  let argv_with opts :=
    Argv (["git"; "tag"] ++ opts ++ ["-m"; m; version]
          ++ (if Py.otruthy commit then [default "" commit] else [])) in
  let dispatched :=
    map l_cmd (launched (world (snd (GitTag__call__ version msg commit
                                       (mkState t w))))) in
  let renders opts :=
    py_format msg (GitTag_locals t version msg commit opts) = inr m in
  (sign = false -> renders [] ->
     dispatched = map l_cmd (launched w) ++ [argv_with []])
  /\ (forall k, sign = true -> kid = Some k -> k <> "" -> renders ["-u"; k] ->
        dispatched = map l_cmd (launched w) ++ [argv_with ["-u"; k]])
  /\ (sign = true -> kid = None \/ kid = Some "" -> renders ["-s"] ->
        dispatched = map l_cmd (launched w) ++ [argv_with ["-s"]]).
Proof.
  intros [= <-]. cbn zeta.
  split; [| split].
  - intros -> Hm.
    rewrite (GitTag__call__dispatch _ _ _ _ m w []); [| reflexivity | exact Hm].
    reflexivity.
  - intros k -> -> Hk Hm.
    rewrite (GitTag__call__dispatch _ _ _ _ m w ["-u"; k]); [| | exact Hm].
    + reflexivity.
    + simpl. unfold Py.truthy.
      destruct (String.eqb_spec k ""); [contradiction | reflexivity].
  - intros -> Hkid Hm.
    rewrite (GitTag__call__dispatch _ _ _ _ m w ["-s"]); [| | exact Hm].
    + reflexivity.
    + destruct Hkid as [-> | ->]; reflexivity.
Qed.


(** ** Properties of [copy_from] *)

(** The guard of the comprehension tests the whole list, which [split]
    never leaves empty: nothing is filtered out. *)
Lemma comprehension_keeps_all (files : list string) :
  List.filter (fun f => negb (bool_decide (files = []))) files = files.
Proof.
  destruct files as [| f files]; [reflexivity |].
  rewrite bool_decide_eq_false_2 by discriminate.
  simpl. f_equal. induction files as [| g files IH]; simpl; congruence.
Qed.

Lemma copy_from_spec (orig_dir : string) (filters : list string) (w : World) :
  fst (copy_from orig_dir filters w) =
    match spawn (tar_producer orig_dir filters) None w with
    | inl e => inl (copy_error e)
    | inr p1 =>
        match spawn tar_consumer (Some p1)
                (producer_started orig_dir filters w) with
        | inl e => inl (copy_error e)
        | inr p2 =>
            match p_communicate p2 with
            | inl e => inl (copy_error e)
            | inr out =>
                if negb (p_wait p1 =? 0) || negb (p_wait p2 =? 0)
                then inl (GbpError "Cannot copy files, pipe failed.")
                else inr (map os_path.normpath (Py.split "010" out))
            end
        end
    end.
Proof.
  unfold copy_from, subprocess_Popen, Popen_communicate, Popen_wait,
    Popen_wait_again, tar_producer, tar_consumer, producer_started.
  unfold_monad. cbn beta iota zeta.
  destruct (spawn _ None w) as [e | p1].
  { destruct e; reflexivity. }
  destruct (spawn _ (Some p1) _) as [e | p2].
  { destruct e; reflexivity. }
  destruct (p_communicate p2) as [e | out].
  { destruct e; reflexivity. }
  cbn beta iota zeta.
  destruct (negb (p_wait p1 =? 0)); cbn [orb]; [reflexivity |].
  destruct (negb (p_wait p2 =? 0)); [reflexivity |].
  cbn [fst]. rewrite comprehension_keeps_all. reflexivity.
Qed.

(** C6: the failures of [copy_from].  An [OSError] or a [ValueError] at the
    launch of the producer, at the launch of the consumer, or while reading
    the output of the consumer, makes the call raise [GbpError] with
    ["Cannot copy files: "] and the text of the error; when the three steps
    went through and one of the two processes ended with a nonzero code, the
    call raises [GbpError "Cannot copy files, pipe failed."].  The call
    returns a list only when both processes were launched, the output was
    read, and both ended with 0. *)
Theorem copy_from_all_or_nothing (orig_dir : string) (filters : list string)
  (w : World) :
  let r := fst (copy_from orig_dir filters w) in
  let launch1 := spawn (tar_producer orig_dir filters) None w in
  let launch2 p1 :=
    spawn tar_consumer (Some p1) (producer_started orig_dir filters w) in
  let os_or_value e err := e = OSError err \/ e = ValueError err in
  (forall e err, launch1 = inl e -> os_or_value e err ->
     r = inl (GbpError ("Cannot copy files: " +:+ err)))
  /\ (forall p1 e err, launch1 = inr p1 -> launch2 p1 = inl e ->
        os_or_value e err ->
        r = inl (GbpError ("Cannot copy files: " +:+ err)))
  /\ (forall p1 p2 e err, launch1 = inr p1 -> launch2 p1 = inr p2 ->
        p_communicate p2 = inl e -> os_or_value e err ->
        r = inl (GbpError ("Cannot copy files: " +:+ err)))
  /\ (forall p1 p2 out, launch1 = inr p1 -> launch2 p1 = inr p2 ->
        p_communicate p2 = inr out ->
        p_wait p1 <> 0 \/ p_wait p2 <> 0 ->
        r = inl (GbpError "Cannot copy files, pipe failed."))
  /\ (forall files, r = inr files ->
        exists p1 p2 out,
          launch1 = inr p1 /\ launch2 p1 = inr p2
          /\ p_communicate p2 = inr out
          /\ p_wait p1 = 0 /\ p_wait p2 = 0).
Proof.
  cbn zeta. rewrite copy_from_spec.
  split; [| split; [| split; [| split]]].
  - intros e err -> [-> | ->]; reflexivity.
  - intros p1 e err -> -> [-> | ->]; reflexivity.
  - intros p1 p2 e err -> -> -> [-> | ->]; reflexivity.
  - intros p1 p2 out -> -> -> Hnz.
    assert (negb (p_wait p1 =? 0) || negb (p_wait p2 =? 0) = true) as ->.
    { destruct Hnz as [H | H]; apply orb_true_iff; [left | right];
        apply negb_true_iff; lia. }
    reflexivity.
  - intros files.
    destruct (spawn _ None w) as [e | p1]; [discriminate |].
    destruct (spawn _ (Some p1) _) as [e | p2] eqn:E2; [discriminate |].
    destruct (p_communicate p2) as [e | out] eqn:E3; [discriminate |].
    destruct (negb (p_wait p1 =? 0) || negb (p_wait p2 =? 0)) eqn:Hw;
      [discriminate |].
    intros _. exists p1, p2, out.
    apply orb_false_iff in Hw as [H1 H2].
    apply negb_false_iff in H1, H2.
    apply Z.eqb_eq in H1, H2.
    repeat split; first [reflexivity | assumption].
Qed.

(** The list [copy_from] returns, when it returns one: every line of the
    output of the consumer, normalized, the empty ones too. *)
Lemma copy_from_returns_every_line (orig_dir : string)
  (filters : list string) (w : World) (files : list string) :
  fst (copy_from orig_dir filters w) = inr files ->
  exists p1 p2 out,
    spawn (tar_producer orig_dir filters) None w = inr p1
    /\ spawn tar_consumer (Some p1) (producer_started orig_dir filters w)
       = inr p2
    /\ p_communicate p2 = inr out
    /\ files = map os_path.normpath (Py.split "010" out).
Proof.
  rewrite copy_from_spec.
  destruct (spawn _ None w) as [e | p1]; [discriminate |].
  destruct (spawn _ (Some p1) _) as [e | p2] eqn:E2; [discriminate |].
  destruct (p_communicate p2) as [e | out] eqn:E3; [discriminate |].
  destruct (negb (p_wait p1 =? 0) || negb (p_wait p2 =? 0)); [discriminate |].
  intros [= <-]. exists p1, p2, out.
  repeat split; first [reflexivity | assumption].
Qed.

(** Whenever the output of the consumer ends in a newline, the list that
    comes back ends with the entry [.] made of the empty string after that
    newline. *)
Lemma copy_from_trailing_entry (orig_dir : string) (filters : list string)
  (w : World) (p1 p2 : proc) (lines : string) (files : list string) :
  spawn (tar_producer orig_dir filters) None w = inr p1 ->
  spawn tar_consumer (Some p1) (producer_started orig_dir filters w)
  = inr p2 ->
  p_communicate p2 = inr (lines +:+ String "010" "") ->
  fst (copy_from orig_dir filters w) = inr files ->
  last files = Some ".".
Proof.
  intros H1 H2 H3. rewrite copy_from_spec, H1, H2, H3.
  destruct (negb (p_wait p1 =? 0) || negb (p_wait p2 =? 0)); [discriminate |].
  intros [= <-]. rewrite split_app_sep, map_app. apply last_snoc.
Qed.

(** ** Properties of [RunAtCommand] *)

Lemma abspath_curdir (w : World) :
  canonical_cwd w -> os.abspath "." w = (inr (proc_cwd w), w).
Proof.
  intros (Habs & Hnorm & _). unfold os.abspath, os.getcwd.
  change (os_path.isabs ".") with false. cbn iota. unfold_monad.
  rewrite normpath_join_curdir by exact Habs. rewrite Hnorm. reflexivity.
Qed.

(** Going back to a directory that can be entered by its absolute name. *)
Lemma chdir_back (c : string) (w : World) :
  os_path.isabs c = true -> reachable (files w) c ->
  os.chdir c w = (inr tt, set_cwd c w).
Proof.
  unfold reachable, os.chdir, os.resolve. intros Habs Hr.
  rewrite Habs in *. destruct (String.eqb c ""); [discriminate |].
  cbn zeta in *. rewrite Hr. reflexivity.
Qed.




(** ** More on [Command]: what a call changes and what it leaves *)

(** The launch of a call, written out. *)
Lemma Command_launch_eq (c : Command) (a : list string) :
  Command_launch c a
  = Launch (if shell c then ShellLine (Py.join " " ([cmd c] ++ args c ++ a))
            else Argv ([cmd c] ++ args c ++ a))
           (cwd c) (shell c) (env c) true Inherited Inherited.
Proof.
  unfold Command_launch, call_launch, Command_cmdline.
  destruct (shell c); reflexivity.
Qed.

Lemma strict_call_state (a : list string) (s : state Command) :
  snd (Command__call__ a s)
  = mkState (with_retcode (result_code (fst (child_outcome a s))) (self s))
      (add_errs (report (self s) (fst (child_outcome a s)))
         (launched_world (self s) a
            (files_after (world s) (child_outcome a s)) (world s))).
Proof. rewrite Command__call__spec, Command__run_spec. reflexivity. Qed.

(** The invocation spec of an invoker is never changed by a call: after the
    strict form the program, the fixed arguments, the failure message, the
    shell flag, the directory and the environment of the object are what
    they were, and so are the working directory of the process and its
    environment.  (The file system is the child's to change.) *)
Theorem strict_call_frame (a : list string) (s : state Command) :
  let s' := snd (Command__call__ a s) in
  cmd (self s') = cmd (self s)
  /\ args (self s') = args (self s)
  /\ run_error (self s') = run_error (self s)
  /\ shell (self s') = shell (self s)
  /\ cwd (self s') = cwd (self s)
  /\ env (self s') = env (self s)
  /\ proc_cwd (world s') = proc_cwd (world s)
  /\ os_environ (world s') = os_environ (world s).
Proof.
  cbn zeta. rewrite strict_call_state. repeat split; reflexivity.
Qed.

(** Every call writes one debug line, before anything else it logs: the
    program, then the [repr] of the fixed arguments and of the arguments of
    the call.  The strict form may add error-level lines after it; the
    lenient form logs nothing else, whatever the child does. *)
Theorem call_logs_one_debug_line (a : list string) (s : state Command) :
  let c := self s in
  let line := cmd c +:+ " " +:+ Py.repr_list (args c) +:+ " "
              +:+ Py.repr_list a in
  (exists errs,
     log_lines (world (snd (Command__call__ a s)))
     = log_lines (world s) ++ (Debug, line) :: map (fun m => (Err, m)) errs)
  /\ log_lines (world (snd (Command_call a s)))
     = log_lines (world s) ++ [(Debug, line)].
Proof.
  cbn zeta. split.
  - exists (report (self s) (fst (child_outcome a s))).
    rewrite strict_call_state. cbn [world].
    unfold add_errs, launched_world, launch_world. cbn [log_lines set_log after_launch].
    rewrite <- app_assoc. reflexivity.
  - rewrite Command_call_spec. reflexivity.
Qed.

(** Both forms hand the same launch to [subprocess.call]: the directory,
    the shell flag and the environment are those of the invoker, the hook
    that resets SIGPIPE is always passed, and the standard streams are
    inherited. *)
Theorem both_forms_same_launch (a : list string) (s : state Command) :
  let c := self s in
  exists l,
    launched (world (snd (Command__call__ a s))) = launched (world s) ++ [l]
    /\ launched (world (snd (Command_call a s))) = launched (world s) ++ [l]
    /\ l_cwd l = cwd c /\ l_shell l = shell c /\ l_env l = env c
    /\ l_default_sigpipe l = true
    /\ l_stdin l = Inherited /\ l_stdout l = Inherited.
Proof.
  cbn zeta. exists (Command_launch (self s) a).
  rewrite strict_call_state, Command_call_spec.
  repeat split; reflexivity.
Qed.

(** The environment of an invoker built with extra variables is
    [os.environ] with the extra variables laid over it: a variable of the
    extra mapping has its extra value, any other has the value of the
    process.  Built without extra variables, the invoker has no environment
    of its own (the child inherits). *)
Theorem extra_env_overlays_environ (cmd_ : string) (fixed : list string)
  (shell_ : bool) (cwd_ : option string) (extra : gmap string string)
  (w : World) :
  (exists c m,
     Command_init cmd_ fixed shell_ (Some extra) cwd_ w = (inr c, w)
     /\ env c = Some m
     /\ forall k, m !! k = match extra !! k with
                           | Some v => Some v
                           | None => os_environ w !! k
                           end)
  /\ (exists c,
        Command_init cmd_ fixed shell_ None cwd_ w = (inr c, w)
        /\ env c = None).
Proof.
  split.
  - eexists. exists (extra ∪ os_environ w).
    split; [reflexivity |]. split; [reflexivity |].
    intros k. rewrite lookup_union.
    destruct (extra !! k) as [v |] eqn:E; simpl.
    + destruct (os_environ w !! k); reflexivity.
    + destruct (os_environ w !! k); reflexivity.
  - eexists. split; reflexivity.
Qed.

(** An invoker can be used again: two calls in a row, whatever the first one
    came to, launch the program with the same fixed arguments, each followed
    by the arguments of its own call. *)
Theorem invoker_reusable (a1 a2 : list string) (s : state Command) :
  let c := self s in
  let line a := if shell c then ShellLine (Py.join " " ([cmd c] ++ args c ++ a))
                else Argv ([cmd c] ++ args c ++ a) in
  map l_cmd (launched (world (snd (Command__call__ a2
                                     (snd (Command__call__ a1 s))))))
  = map l_cmd (launched (world s)) ++ [line a1; line a2].
Proof.
  cbn zeta. rewrite !strict_call_state. cbn [world self].
  unfold add_errs, launched_world, launch_world.
  cbn [launched set_log after_launch].
  rewrite !map_app, <- app_assoc. cbn [map app].
  rewrite !Command_launch_eq. reflexivity.
Qed.

Lemma concat_split_word (sep : string) (p q : list string) (x y : string) :
  String.concat sep (p ++ (x +:+ sep +:+ y) :: q)
  = String.concat sep (p ++ x :: y :: q).
Proof.
  induction p as [| z p IH].
  - destruct q as [| r q]; cbn [app String.concat].
    + reflexivity.
    + rewrite <- !append_assoc. reflexivity.
  - cbn [app]. cbn [String.concat].
    destruct (p ++ (x +:+ sep +:+ y) :: q) eqn:E1;
      [destruct p; discriminate |].
    destruct (p ++ x :: y :: q) eqn:E2; [destruct p; discriminate |].
    rewrite IH. reflexivity.
Qed.

(** Shell mode does not quote: the arguments are joined by single spaces,
    so one argument with a space in it and the two arguments around that
    space give the same command line. *)
Theorem shell_mode_does_not_quote (cmd_ : string) (fixed : list string)
  (extra_env : option (gmap string string)) (cwd_ : option string)
  (w0 w : World) (a1 a2 : list string) (x y : string) :
  exists c,
    Command_init cmd_ fixed true extra_env cwd_ w0 = (inr c, w0)
    /\ launched (world (snd (Command__call__
                               (a1 ++ [x +:+ " " +:+ y] ++ a2) (mkState c w))))
       = launched (world (snd (Command__call__
                                 (a1 ++ [x; y] ++ a2) (mkState c w)))).
Proof.
  eexists. split; [reflexivity |].
  rewrite !strict_call_state. cbn [world self].
  unfold add_errs, launched_world. cbn [launched set_log after_launch].
  unfold launch_world. cbn [launched set_log].
  rewrite !Command_launch_eq. cbn [shell cmd args cwd env].
  do 3 f_equal. f_equal. unfold Py.join.
  replace ([cmd_] ++ fixed ++ a1 ++ [x +:+ " " +:+ y] ++ a2)
    with (([cmd_] ++ fixed ++ a1) ++ (x +:+ " " +:+ y) :: a2)
    by (rewrite <- !app_assoc; reflexivity).
  replace ([cmd_] ++ fixed ++ a1 ++ [x; y] ++ a2)
    with (([cmd_] ++ fixed ++ a1) ++ x :: y :: a2)
    by (rewrite <- !app_assoc; reflexivity).
  apply concat_split_word.
Qed.


(** ** The wrappers at work *)

Lemma last_two {A} (l : list A) (x y : A) : last (l ++ [x; y]) = Some y.
Proof.
  change (l ++ [x; y]) with (l ++ [x] ++ [y]).
  rewrite app_assoc. apply last_snoc.
Qed.

Lemma strict_call_result (a : list string) (s : state Command) :
  fst (Command__call__ a s)
  = if result_code (fst (child_outcome a s)) =? 0
    then inr tt else inl (CommandExecFailed None).
Proof. rewrite Command__call__spec. reflexivity. Qed.

(** What the strict form does with an invoker that is not in shell mode:
    the vector it launches, and how it ends when the child fails. *)
Lemma strict_call_on (c : Command) (w : World) (a : list string) :
  shell c = false ->
  let r := Command__call__ a (mkState c w) in
  map l_cmd (launched (world (snd r)))
  = map l_cmd (launched w) ++ [Argv ([cmd c] ++ args c ++ a)]
  /\ run_error (self (snd r)) = run_error c
  /\ (fst (child_outcome a (mkState c w)) = inr 0 -> fst r = inr tt)
  /\ (forall N, N <> 0 -> fst (child_outcome a (mkState c w)) = inr N ->
        fst r = inl (CommandExecFailed None)
        /\ last (log_err_lines (snd r)) = Some (run_error c)).
Proof.
  intros Hsh. cbn zeta. rewrite strict_call_result, strict_call_state.
  cbn [world self]. unfold log_err_lines. cbn [world].
  rewrite err_lines_add_errs, err_lines_launched_world.
  split; [| split; [| split]].
  - unfold add_errs, launched_world, launch_world.
    cbn [launched set_log after_launch].
    rewrite map_app, Command_launch_eq, Hsh. reflexivity.
  - reflexivity.
  - intros ->. reflexivity.
  - intros N HN ->. cbn [result_code report].
    assert ((N =? 0) = false) as -> by lia. split; [reflexivity |].
    destruct (N <? 0) eqn:Hneg; [apply last_two |].
    assert ((N >? 0) = true) as -> by lia. apply last_two.
Qed.

(** A method that first sets the failure message and then calls. *)
Lemma set_run_error_then_call (msg : string) (a : list string)
  (s : state Command) :
  (set_run_error msg;; Command__call__ a) s
  = Command__call__ a (mkState (with_run_error msg (self s)) (world s)).
Proof. reflexivity. Qed.

Lemma child_outcome_with_run_error (msg : string) (a : list string)
  (c : Command) (w : World) :
  child_outcome a (mkState (with_run_error msg c) w)
  = child_outcome a (mkState c w).
Proof. reflexivity. Qed.

(** The same, for a method that sets its message at each call. *)
Lemma messaged_call_on (msg : string) (c : Command) (w : World)
  (a : list string) :
  shell c = false ->
  let r := (set_run_error msg;; Command__call__ a) (mkState c w) in
  map l_cmd (launched (world (snd r)))
  = map l_cmd (launched w) ++ [Argv ([cmd c] ++ args c ++ a)]
  /\ run_error (self (snd r)) = msg
  /\ (fst (child_outcome a (mkState c w)) = inr 0 -> fst r = inr tt)
  /\ (forall N, N <> 0 -> fst (child_outcome a (mkState c w)) = inr N ->
        fst r = inl (CommandExecFailed None)
        /\ last (log_err_lines (snd r)) = Some msg).
Proof.
  intros Hsh. cbn zeta. rewrite set_run_error_then_call.
  cbn [self world].
  rewrite <- (child_outcome_with_run_error msg a c w).
  apply (strict_call_on (with_run_error msg c) w a Hsh).
Qed.

Lemma split_no_sep (sep : ascii) (f : string) :
  Py.contains sep f = false -> Py.split sep f = [f].
Proof.
  induction f as [| x f IH]; [reflexivity |].
  cbn [Py.contains Py.split]. intros [Hx Hf]%orb_false_iff.
  rewrite Hx, (IH Hf). reflexivity.
Qed.

(** [os.path.basename] of a path is what follows its last slash. *)
Lemma basename_join (d f : string) :
  Py.contains "/" f = false ->
  os_path.basename (d +:+ String "/" f) = f.
Proof.
  intros Hf. unfold os_path.basename.
  rewrite split_app_sep, (split_no_sep _ _ Hf).
  rewrite last_snoc. reflexivity.
Qed.

(** [PristineTar.commit] on a constructed [PristineTar]: it launches
    [/usr/bin/pristine-tar commit archive branch]; the failure message of
    the object is from then on the one of this commit; the call returns when
    the child ends with 0 and, when the child ends with another code, raises
    a bare [CommandExecFailed] after an error-level line that names the
    branch. *)
Theorem PristineTar_commit_reports (archive_ branch : string) (w0 w : World)
  (c : Command) :
  fst (PristineTar_init w0) = inr c ->
  let a := ["commit"; archive_; branch] in
  let msg := "Couldn't commit to " +:+ Py.dquote +:+ branch +:+ Py.dquote in
  let r := PristineTar_commit archive_ branch (mkState c w) in
  map l_cmd (launched (world (snd r)))
  = map l_cmd (launched w)
    ++ [Argv ["/usr/bin/pristine-tar"; "commit"; archive_; branch]]
  /\ run_error (self (snd r)) = msg
  /\ (fst (child_outcome a (mkState c w)) = inr 0 -> fst r = inr tt)
  /\ (forall N, N <> 0 -> fst (child_outcome a (mkState c w)) = inr N ->
        fst r = inl (CommandExecFailed None)
        /\ last (log_err_lines (snd r)) = Some msg).
Proof.
  unfold PristineTar_init, os.access_X_OK. unfold_monad. cbn [fst snd].
  destruct (bool_decide _); cbn [negb]; [| discriminate].
  intros [= <-]. cbn zeta.
  apply messaged_call_on; reflexivity.
Qed.

(** [PristineTar.checkout] launches the checkout of the archive under the
    path it was given, and its failure message names the archive by what
    follows the last slash of that path. *)
Theorem PristineTar_checkout_reports (d f : string) (w0 w : World)
  (c : Command) :
  fst (PristineTar_init w0) = inr c ->
  Py.contains "/" f = false ->
  let archive_ := d +:+ String "/" f in
  let a := ["checkout"; archive_] in
  let msg := "Couldn't checkout " +:+ Py.dquote +:+ f +:+ Py.dquote in
  let r := PristineTar_checkout archive_ (mkState c w) in
  map l_cmd (launched (world (snd r)))
  = map l_cmd (launched w)
    ++ [Argv ["/usr/bin/pristine-tar"; "checkout"; archive_]]
  /\ run_error (self (snd r)) = msg
  /\ (fst (child_outcome a (mkState c w)) = inr 0 -> fst r = inr tt)
  /\ (forall N, N <> 0 -> fst (child_outcome a (mkState c w)) = inr N ->
        fst r = inl (CommandExecFailed None)
        /\ last (log_err_lines (snd r)) = Some msg).
Proof.
  unfold PristineTar_init, os.access_X_OK. unfold_monad. cbn [fst snd].
  destruct (bool_decide _); cbn [negb]; [| discriminate].
  intros [= <-] Hf. cbn zeta. unfold PristineTar_checkout.
  rewrite (basename_join d f Hf).
  apply messaged_call_on; reflexivity.
Qed.

(** [DpkgSourceExtract]: each call launches [dpkg-source -x dsc output_dir]
    and, from then on, reports failures by naming that [dsc]. *)
Theorem DpkgSourceExtract_reports (dsc output_dir : string) (w0 w : World) :
  exists c,
    DpkgSourceExtract_init w0 = (inr c, w0)
    /\ let a := [dsc; output_dir] in
       let msg := "Couldn't extract " +:+ Py.dquote +:+ dsc +:+ Py.dquote in
       let r := DpkgSourceExtract__call__ dsc output_dir (mkState c w) in
       map l_cmd (launched (world (snd r)))
       = map l_cmd (launched w)
         ++ [Argv ["dpkg-source"; "-x"; dsc; output_dir]]
       /\ run_error (self (snd r)) = msg
       /\ (fst (child_outcome a (mkState c w)) = inr 0 -> fst r = inr tt)
       /\ (forall N, N <> 0 ->
             fst (child_outcome a (mkState c w)) = inr N ->
             fst r = inl (CommandExecFailed None)
             /\ last (log_err_lines (snd r)) = Some msg).
Proof.
  eexists. split; [reflexivity |]. cbn zeta.
  apply messaged_call_on; reflexivity.
Qed.

(** [GitBranch]: a call launches [git branch branch], followed by the
    remote when one is given; a remote that is [None] or the empty string
    is left out.  Failures are reported by naming the branch. *)
Theorem GitBranch_optional_remote (branch : string) (remote : option string)
  (w0 w : World) :
  exists c,
    GitBranch_init w0 = (inr c, w0)
    /\ let a := match remote with
                | Some r => if String.eqb r "" then [branch] else [branch; r]
                | None => [branch]
                end in
       let msg := "Couldn't create branch " +:+ Py.dquote +:+ branch
                  +:+ Py.dquote in
       let r := GitBranch__call__ branch remote (mkState c w) in
       map l_cmd (launched (world (snd r)))
       = map l_cmd (launched w) ++ [Argv (["git"; "branch"] ++ a)]
       /\ run_error (self (snd r)) = msg
       /\ (fst (child_outcome a (mkState c w)) = inr 0 -> fst r = inr tt)
       /\ (forall N, N <> 0 ->
             fst (child_outcome a (mkState c w)) = inr N ->
             fst r = inl (CommandExecFailed None)
             /\ last (log_err_lines (snd r)) = Some msg).
Proof.
  eexists. split; [reflexivity |]. cbn zeta. unfold GitBranch__call__.
  destruct remote as [r |];
    [destruct (String.eqb r "") eqn:Hr |];
    cbv beta iota zeta delta [Py.otruthy Py.truthy default negb app];
    rewrite ?Hr; cbv beta iota zeta delta [negb app];
    apply messaged_call_on; reflexivity.
Qed.


(** The strict form on an object just built: the four facts of
    [strict_call_on], with the vector and the message written out. *)
Ltac built_then_called c w a :=
  destruct (strict_call_on c w a eq_refl) as (Hl & He & H0 & HN);
  cbn [cmd args run_error with_run_error] in Hl, He, H0, HN;
  split; [rewrite Hl; cbn [app]; rewrite <- ?app_assoc; reflexivity |];
  split; [exact He |]; split; [exact H0 | exact HN].

(** [UnpackTarArchive]: the object keeps the archive and the directory, and
    a call launches [tar], one [--exclude=] option per filter in the order
    of the filters, then [-C dir], the compression option, [-xf archive] and
    the arguments of the call.  A compression that is [None] or empty
    becomes [-a].  A failure is reported by naming the archive. *)
Theorem UnpackTarArchive_runs_tar (archive_ dir_ : string)
  (filters : list string) (compression : option string) (w0 w : World)
  (a : list string) :
  let comp := match compression with
              | Some c => if String.eqb c "" then "-a" else c
              | None => "-a"
              end in
  let msg := "Couldn't unpack " +:+ Py.dquote +:+ archive_ +:+ Py.dquote in
  exists o,
    UnpackTarArchive_init archive_ dir_ filters compression w0 = (inr o, w0)
    /\ archive o = archive_ /\ dir o = dir_
    /\ let c := archive_command o in
       let r := Command__call__ a (mkState c w) in
       map l_cmd (launched (world (snd r)))
       = map l_cmd (launched w)
         ++ [Argv ("tar" :: map (fun f => "--exclude=" +:+ f) filters
                   ++ ["-C"; dir_; comp; "-xf"; archive_] ++ a)]
       /\ run_error (self (snd r)) = msg
       /\ (fst (child_outcome a (mkState c w)) = inr 0 -> fst r = inr tt)
       /\ (forall N, N <> 0 ->
             fst (child_outcome a (mkState c w)) = inr N ->
             fst r = inl (CommandExecFailed None)
             /\ last (log_err_lines (snd r)) = Some msg).
Proof.
  cbn zeta. unfold UnpackTarArchive_init.
  destruct compression as [c |]; [destruct (String.eqb c "") eqn:Hc |];
    cbv beta iota zeta delta [Py.otruthy Py.truthy default negb];
    rewrite ?Hc; cbv beta iota zeta delta [negb];
    (eexists; split; [reflexivity |]; split; [reflexivity |];
     split; [reflexivity |]); cbn [archive_command];
    match goal with
    | |- context [Command__call__ a (mkState ?c w)] => built_then_called c w a
    end.
Qed.

(** [PackTarArchive]: a call launches [tar], one [--exclude=] option per
    filter in the order of the filters, then [-C dir], the compression
    option, [-cf archive dest] and the arguments of the call; [None] or an
    empty compression becomes [-a].  A failure is reported by naming the
    archive. *)
Theorem PackTarArchive_runs_tar (archive_ dir_ dest : string)
  (filters : list string) (compression : option string) (w0 w : World)
  (a : list string) :
  let comp := match compression with
              | Some c => if String.eqb c "" then "-a" else c
              | None => "-a"
              end in
  let msg := "Couldn't repack " +:+ Py.dquote +:+ archive_ +:+ Py.dquote in
  exists o,
    PackTarArchive_init archive_ dir_ dest filters compression w0
    = (inr o, w0)
    /\ archive o = archive_ /\ dir o = dir_
    /\ let c := archive_command o in
       let r := Command__call__ a (mkState c w) in
       map l_cmd (launched (world (snd r)))
       = map l_cmd (launched w)
         ++ [Argv ("tar" :: map (fun f => "--exclude=" +:+ f) filters
                   ++ ["-C"; dir_; comp; "-cf"; archive_; dest] ++ a)]
       /\ run_error (self (snd r)) = msg
       /\ (fst (child_outcome a (mkState c w)) = inr 0 -> fst r = inr tt)
       /\ (forall N, N <> 0 ->
             fst (child_outcome a (mkState c w)) = inr N ->
             fst r = inl (CommandExecFailed None)
             /\ last (log_err_lines (snd r)) = Some msg).
Proof.
  cbn zeta. unfold PackTarArchive_init.
  destruct compression as [c |]; [destruct (String.eqb c "") eqn:Hc |];
    cbv beta iota zeta delta [Py.otruthy Py.truthy default negb];
    rewrite ?Hc; cbv beta iota zeta delta [negb];
    (eexists; split; [reflexivity |]; split; [reflexivity |];
     split; [reflexivity |]); cbn [archive_command];
    match goal with
    | |- context [Command__call__ a (mkState ?c w)] => built_then_called c w a
    end.
Qed.

(** [Dch]: a call launches [dch -v version], followed by the message when
    there is one ([None] and the empty message are left out) and by the
    arguments of the call; a failure is reported as ["Dch failed."]. *)
Theorem Dch_optional_message (version : string) (msg : option string)
  (w0 w : World) (a : list string) :
  let fixed := match msg with
               | Some m => if String.eqb m "" then ["-v"; version]
                           else ["-v"; version; m]
               | None => ["-v"; version]
               end in
  exists c,
    Dch_init version msg w0 = (inr c, w0)
    /\ let r := Command__call__ a (mkState c w) in
       map l_cmd (launched (world (snd r)))
       = map l_cmd (launched w) ++ [Argv ("dch" :: fixed ++ a)]
       /\ run_error (self (snd r)) = "Dch failed."
       /\ (fst (child_outcome a (mkState c w)) = inr 0 -> fst r = inr tt)
       /\ (forall N, N <> 0 ->
             fst (child_outcome a (mkState c w)) = inr N ->
             fst r = inl (CommandExecFailed None)
             /\ last (log_err_lines (snd r)) = Some "Dch failed.").
Proof.
  cbn zeta. unfold Dch_init.
  destruct msg as [m |]; [destruct (String.eqb m "") eqn:Hm |];
    cbv beta iota zeta delta [Py.otruthy Py.truthy default negb];
    rewrite ?Hm; cbv beta iota zeta delta [negb app];
    (eexists; split; [reflexivity |]);
    match goal with
    | |- context [Command__call__ a (mkState ?c w)] => built_then_called c w a
    end.
Qed.

(** [GitFetch]: a call launches [git fetch], followed by the remote given
    at construction when there is one ([None] and the empty name are left
    out) and by the arguments of the call; a failure is reported as
    ["Couldn't run git fetch"]. *)
Theorem GitFetch_optional_remote (remote : option string) (w0 w : World)
  (a : list string) :
  let fixed := match remote with
               | Some r => if String.eqb r "" then [] else [r]
               | None => []
               end in
  exists c,
    GitFetch_init remote w0 = (inr c, w0)
    /\ let r := Command__call__ a (mkState c w) in
       map l_cmd (launched (world (snd r)))
       = map l_cmd (launched w) ++ [Argv ("git" :: "fetch" :: fixed ++ a)]
       /\ run_error (self (snd r)) = "Couldn't run git fetch"
       /\ (fst (child_outcome a (mkState c w)) = inr 0 -> fst r = inr tt)
       /\ (forall N, N <> 0 ->
             fst (child_outcome a (mkState c w)) = inr N ->
             fst r = inl (CommandExecFailed None)
             /\ last (log_err_lines (snd r)) = Some "Couldn't run git fetch").
Proof.
  cbn zeta. unfold GitFetch_init.
  destruct remote as [r |]; [destruct (String.eqb r "") eqn:Hr |];
    cbv beta iota zeta delta [Py.otruthy Py.truthy default negb];
    rewrite ?Hr; cbv beta iota zeta delta [negb app];
    (eexists; split; [reflexivity |]);
    match goal with
    | |- context [Command__call__ a (mkState ?c w)] => built_then_called c w a
    end.
Qed.

(** [GitMerge]: a call launches [git merge branch], with [--no-summary]
    unless [verbose] is set, then the arguments of the call; a failure is
    reported by naming the branch. *)
Theorem GitMerge_summary_option (branch : string) (verbose : bool)
  (w0 w : World) (a : list string) :
  let msg := "Couldn't merge from " +:+ Py.dquote +:+ branch +:+ Py.dquote in
  exists c,
    GitMerge_init branch verbose w0 = (inr c, w0)
    /\ let r := Command__call__ a (mkState c w) in
       map l_cmd (launched (world (snd r)))
       = map l_cmd (launched w)
         ++ [Argv (["git"; "merge"; branch]
                   ++ (if verbose then [] else ["--no-summary"]) ++ a)]
       /\ run_error (self (snd r)) = msg
       /\ (fst (child_outcome a (mkState c w)) = inr 0 -> fst r = inr tt)
       /\ (forall N, N <> 0 ->
             fst (child_outcome a (mkState c w)) = inr N ->
             fst r = inl (CommandExecFailed None)
             /\ last (log_err_lines (snd r)) = Some msg).
Proof.
  cbn zeta. unfold GitMerge_init.
  destruct verbose; cbv beta iota zeta;
    (eexists; split; [reflexivity |]);
    match goal with
    | |- context [Command__call__ a (mkState ?c w)] => built_then_called c w a
    end.
Qed.

(** [RemoveTree], [UnpackZipArchive] and [GitClone]: what a call launches
    ([rm -rf tree], [unzip -q archive -d dir], [git clone] and the
    arguments of the call), and the line that reports a failure. *)
Theorem plain_wrappers_run (tree_ archive_ dir_ : string) (w0 w : World)
  (a : list string) (N : Z) :
  N <> 0 ->
  (exists o,
     RemoveTree_init tree_ w0 = (inr o, w0) /\ tree o = tree_
     /\ let c := rm_command o in
        let r := Command__call__ a (mkState c w) in
        map l_cmd (launched (world (snd r)))
        = map l_cmd (launched w) ++ [Argv (["rm"; "-rf"; tree_] ++ a)]
        /\ (fst (child_outcome a (mkState c w)) = inr N ->
            fst r = inl (CommandExecFailed None)
            /\ last (log_err_lines (snd r))
               = Some ("Couldn't remove " +:+ Py.dquote +:+ tree_
                       +:+ Py.dquote)))
  /\ (exists o,
        UnpackZipArchive_init archive_ dir_ w0 = (inr o, w0)
        /\ archive o = archive_ /\ dir o = dir_
        /\ let c := archive_command o in
           let r := Command__call__ a (mkState c w) in
           map l_cmd (launched (world (snd r)))
           = map l_cmd (launched w)
             ++ [Argv (["unzip"; "-q"; archive_; "-d"; dir_] ++ a)]
           /\ (fst (child_outcome a (mkState c w)) = inr N ->
               fst r = inl (CommandExecFailed None)
               /\ last (log_err_lines (snd r))
                  = Some ("Couldn't unpack " +:+ Py.dquote +:+ archive_
                          +:+ Py.dquote)))
  /\ (exists c,
        GitClone_init w0 = (inr c, w0)
        /\ let r := Command__call__ a (mkState c w) in
           map l_cmd (launched (world (snd r)))
           = map l_cmd (launched w) ++ [Argv (["git"; "clone"] ++ a)]
           /\ (fst (child_outcome a (mkState c w)) = inr N ->
               fst r = inl (CommandExecFailed None)
               /\ last (log_err_lines (snd r))
                  = Some "Couldn't clone git repository")).
Proof.
  intros HN0. split; [| split].
  - eexists. split; [reflexivity |]. split; [reflexivity |].
    cbn zeta. cbn [rm_command].
    match goal with
    | |- context [Command__call__ a (mkState ?c w)] =>
        destruct (strict_call_on c w a eq_refl) as (Hl & _ & _ & HN)
    end.
    split; [exact Hl | exact (HN N HN0)].
  - eexists. split; [reflexivity |]. split; [reflexivity |].
    split; [reflexivity |].
    cbn zeta. cbn [archive_command].
    match goal with
    | |- context [Command__call__ a (mkState ?c w)] =>
        destruct (strict_call_on c w a eq_refl) as (Hl & _ & _ & HN)
    end.
    split; [exact Hl | exact (HN N HN0)].
  - eexists. split; [reflexivity |]. cbn zeta.
    match goal with
    | |- context [Command__call__ a (mkState ?c w)] =>
        destruct (strict_call_on c w a eq_refl) as (Hl & _ & _ & HN)
    end.
    split; [exact Hl | exact (HN N HN0)].
Qed.


(** [CatenateTarArchive]: a call launches [tar -A -f archive target]; the
    keyword arguments of the constructor reach the launch (the directory,
    and the shell flag, with which the vector is one line); the object keeps
    its archive; a failure is reported with the default message, which
    spells out the fixed command. *)
Theorem CatenateTarArchive_appends (archive_ target : string)
  (shell_ : bool) (extra_env : option (gmap string string))
  (cwd_ : option string) (w0 w : World) :
  exists o,
    CatenateTarArchive_init archive_ shell_ extra_env cwd_ w0 = (inr o, w0)
    /\ catenate_archive o = archive_
    /\ let r := CatenateTarArchive__call__ target (mkState o w) in
       (exists l,
          launched (world (snd r)) = launched w ++ [l]
          /\ l_cmd l = (if shell_
                        then ShellLine ("tar -A -f " +:+ archive_ +:+ " "
                                        +:+ target)
                        else Argv ["tar"; "-A"; "-f"; archive_; target])
          /\ l_cwd l = cwd_ /\ l_shell l = shell_)
       /\ catenate_archive (self (snd r)) = archive_
       /\ (forall N, N <> 0 ->
             fst (child_outcome [target] (mkState (catenate_command o) w))
             = inr N ->
             fst r = inl (CommandExecFailed None)
             /\ last (log_err_lines (snd r))
                = Some ("Couldn't run 'tar -A -f " +:+ archive_ +:+ "'")).
Proof.
  eexists. split; [reflexivity |]. split; [reflexivity |]. cbn zeta.
  unfold CatenateTarArchive__call__, as_base.
  cbn [self world catenate_command].
  match goal with
  | |- context [Command__call__ [target] (mkState ?c w)] =>
      set (c0 := c);
      pose proof (strict_call_result [target] (mkState c0 w)) as Hr;
      pose proof (strict_call_state [target] (mkState c0 w)) as Hs;
      destruct (Command__call__ [target] (mkState c0 w)) as [res s']
  end.
  cbn [fst snd] in *. subst s' res. cbn [self world].
  split; [| split].
  - exists (Command_launch c0 [target]).
    split; [reflexivity |]. rewrite Command_launch_eq.
    subst c0. cbn [shell cmd args cwd l_cmd l_cwd l_shell].
    destruct shell_; repeat split; reflexivity.
  - reflexivity.
  - intros N HN ->. cbn [result_code].
    assert ((N =? 0) = false) as -> by lia. split; [reflexivity |].
    unfold log_err_lines. cbn [world].
    rewrite err_lines_add_errs, err_lines_launched_world.
    cbn [report].
    destruct (N <? 0) eqn:Hneg; [apply last_two |].
    assert ((N >? 0) = true) as -> by lia. apply last_two.
Qed.

(** ** More on [GitTag] *)

(** [GitTag.__call__], step by step. *)
Lemma GitTag__call__spec (version msg : string) (commit : option string)
  (s : state GitTag) :
  GitTag__call__ version msg commit s =
    let t := self s in
    let c1 := with_run_error ("Couldn't tag " +:+ Py.dquote +:+ version
                              +:+ Py.dquote) (tag_command t) in
    let opts :=
      if sign_tag t
      then if Py.otruthy (keyid t) then ["-u"; default "" (keyid t)]
           else ["-s"]
      else [] in
    match py_format msg (GitTag_locals t version msg commit opts) with
    | inl e => (inl e, mkState (with_tag_command c1 t) (world s))
    | inr m =>
        let a := opts ++ ["-m"; m; version] in
        let a := if Py.otruthy commit then a ++ [default "" commit] else a in
        (fst (Command__call__ a (mkState c1 (world s))),
         mkState (with_tag_command
                    (self (snd (Command__call__ a (mkState c1 (world s)))))
                    t)
                 (world (snd (Command__call__ a (mkState c1 (world s))))))
    end.
Proof.
  unfold GitTag__call__.
  unfold mbind at 1, M_bind at 1, bind at 1.
  unfold as_base at 1, set_run_error at 1, modify at 1.
  cbn [self world fst snd].
  unfold mbind at 1, M_bind at 1, bind at 1, gets at 1.
  cbn [self sign_tag keyid with_tag_command].
  unfold mbind at 1, M_bind at 1, bind at 1.
  cbn [self world with_tag_command sign_tag keyid tag_command].
  cbn zeta. unfold GitTag_locals.
  destruct (py_format msg _) as [e | m]; [reflexivity |].
  unfold as_base. cbn [self world tag_command with_tag_command].
  destruct (Command__call__ _ _) as [res s']. reflexivity.
Qed.

(** When the message template cannot be rendered, [GitTag.__call__] lets
    the exception of the formatting through and launches and logs nothing;
    the failure message of the object has already been set for this
    version. *)
Theorem GitTag_unrendered_message (t : GitTag) (version msg : string)
  (commit : option string) (e : exn) (w : World) :
  (forall opts,
     py_format msg (GitTag_locals t version msg commit opts) = inl e) ->
  let r := GitTag__call__ version msg commit (mkState t w) in
  fst r = inl e
  /\ world (snd r) = w
  /\ run_error (tag_command (self (snd r)))
     = "Couldn't tag " +:+ Py.dquote +:+ version +:+ Py.dquote
  /\ sign_tag (self (snd r)) = sign_tag t /\ keyid (self (snd r)) = keyid t.
Proof.
  intros Hfmt. cbn zeta. rewrite GitTag__call__spec. cbn zeta.
  cbn [self world]. rewrite Hfmt. repeat split; reflexivity.
Qed.

(** Whatever makes [git tag] fail (a signing failure, a tag that exists),
    [GitTag.__call__] ends the same way.  With a message that renders, the
    call makes one launch of the command of the tagger, with some arguments
    [a]; when the operating system answers that launch with a code other
    than 0, the call raises a bare [CommandExecFailed] after an error-level
    line that names the version, and the code is in the last-result
    field. *)
Theorem GitTag_failure_message (t : GitTag) (version msg : string)
  (commit : option string) (m : string) (w : World) :
  (forall opts,
     py_format msg (GitTag_locals t version msg commit opts) = inr m) ->
  let r := GitTag__call__ version msg commit (mkState t w) in
  exists a,
    launched (world (snd r))
    = launched w ++ [Command_launch (tag_command t) a]
    /\ forall N, N <> 0 ->
         fst (child_outcome a (mkState (tag_command t) w)) = inr N ->
         fst r = inl (CommandExecFailed None)
         /\ last (log_err_lines (snd r))
            = Some ("Couldn't tag " +:+ Py.dquote +:+ version +:+ Py.dquote)
         /\ retcode (tag_command (self (snd r))) = N.
Proof.
  intros Hfmt. cbn zeta. rewrite GitTag__call__spec. cbn zeta.
  cbn [self world]. rewrite Hfmt. cbn [fst snd self world].
  eexists. split.
  - rewrite strict_call_state. cbn [world self].
    unfold add_errs, launched_world, launch_world.
    cbn [launched set_log after_launch]. reflexivity.
  - intros N HN Ho.
    rewrite strict_call_result, strict_call_state.
    rewrite child_outcome_with_run_error, Ho. cbn [result_code self world].
    assert ((N =? 0) = false) as -> by lia.
    split; [reflexivity |]. split; [| reflexivity].
    unfold log_err_lines. cbn [world].
    rewrite err_lines_add_errs, err_lines_launched_world. cbn [report].
    destruct (N <? 0) eqn:Hneg; [apply last_two |].
    assert ((N >? 0) = true) as -> by lia. apply last_two.
Qed.

(** ** More on [RunAtCommand] *)

Lemma set_cwd_same (w : World) : set_cwd (proc_cwd w) w = w.
Proof. destruct w. reflexivity. Qed.

Lemma set_cwd_twice (c t : string) (w : World) :
  set_cwd c (set_cwd t w) = set_cwd c w.
Proof. reflexivity. Qed.

Lemma chdir_there (d t : string) (w : World) :
  os.resolve (files w) (proc_cwd w) d = inr t ->
  os.chdir d w = (inr tt, set_cwd t w).
Proof. unfold os.chdir. intros ->. reflexivity. Qed.

Lemma chdir_fails (d : string) (e : os.errno) (w : World) :
  os.resolve (files w) (proc_cwd w) d = inl e ->
  os.chdir d w
  = (inl (OSError (os.strerror e +:+ ": " +:+ Py.repr d)), w).
Proof. unfold os.chdir. intros ->. reflexivity. Qed.


(** [RunAtCommand.__call__] with a path [os.chdir] cannot follow (a
    component is missing, is not a directory, or may not be searched, or the
    path is empty) raises the [OSError] of [os.chdir] and leaves everything
    as it was: nothing is launched or logged, the object is untouched, the
    working directory is the same. *)
Theorem RunAtCommand_chdir_fails (d : string) (e : os.errno)
  (varargs : list (list string)) (s : state Command) :
  canonical_cwd (world s) ->
  os.resolve (files (world s)) (proc_cwd (world s)) d = inl e ->
  RunAtCommand__call__ d varargs s
  = (inl (OSError (os.strerror e +:+ ": " +:+ Py.repr d)), s).
Proof.
  intros Hcan Hout. pose proof Hcan as (Habs & Hnorm & Hin).
  unfold RunAtCommand__call__.
  unfold mbind at 1, M_bind at 1, bind at 1, in_world at 1.
  rewrite abspath_curdir by exact Hcan.
  unfold try_except.
  unfold mbind at 1, M_bind at 1, bind at 1, in_world at 1. cbn [world self].
  rewrite (chdir_fails d e (world s) Hout).
  unfold_monad. rewrite chdir_back by assumption.
  rewrite set_cwd_same. destruct s. reflexivity.
Qed.

(** [RunAtCommand.__call__] takes at most one list after the directory:
    with two or more, [list] raises a [TypeError] once the directory has
    been entered; nothing is launched or logged, and the working directory
    is put back. *)
Theorem RunAtCommand_too_many_lists (d t : string) (a1 a2 : list string)
  (rest : list (list string)) (s : state Command) :
  canonical_cwd (world s) ->
  os.resolve (files (world s)) (proc_cwd (world s)) d = inr t ->
  RunAtCommand__call__ d (a1 :: a2 :: rest) s
  = (inl (TypeError ("list() takes at most 1 argument ("
                     +:+ Py.dec (Z.of_nat (2 + length rest)) +:+ " given)")),
     s).
Proof.
  intros Hcan Ht. pose proof Hcan as (Habs & Hnorm & Hin).
  unfold RunAtCommand__call__.
  unfold mbind at 1, M_bind at 1, bind at 1, in_world at 1.
  rewrite abspath_curdir by exact Hcan.
  unfold try_except.
  unfold mbind at 1, M_bind at 1, bind at 1, in_world at 1. cbn [world self].
  rewrite (chdir_there d t (world s) Ht).
  cbn [list_star]. unfold_monad. cbn [world self fst snd].
  rewrite chdir_back by assumption.
  rewrite set_cwd_twice, set_cwd_same. destruct s. reflexivity.
Qed.

(** ** More on [copy_from] *)

Lemma copy_from_world (orig_dir : string) (filters : list string)
  (w : World) :
  snd (copy_from orig_dir filters w)
  = match spawn (tar_producer orig_dir filters) None w with
    | inl _ => producer_started orig_dir filters w
    | inr p1 =>
        let w2 := after_launch tar_consumer (files w)
                    (producer_started orig_dir filters w) in
        match spawn tar_consumer (Some p1)
                (producer_started orig_dir filters w) with
        | inl _ => w2
        | inr p2 =>
            match p_communicate p2 with
            | inl _ => w2
            | inr _ => set_files (p_effect p1 (p_effect p2 (files w))) w2
            end
        end
    end.
Proof.
  unfold copy_from, subprocess_Popen, Popen_communicate, Popen_wait,
    Popen_wait_again, tar_producer, tar_consumer, producer_started.
  unfold_monad. cbn beta iota zeta.
  destruct (spawn _ None w) as [e | p1].
  { destruct e; reflexivity. }
  destruct (spawn _ (Some p1) _) as [e | p2].
  { destruct e; reflexivity. }
  destruct (p_communicate p2) as [e | out].
  { destruct e; reflexivity. }
  cbn beta iota zeta.
  destruct (negb (p_wait p1 =? 0)); [reflexivity |].
  destruct (negb (p_wait p2 =? 0)); reflexivity.
Qed.

(** The processes of [copy_from]: first the producer, [tar] with one
    [--exclude=] option per filter in the order of the filters and then
    [-cSpf - .], run in the directory to copy from with its output on a
    pipe; then, only if the producer could be launched, the consumer,
    [tar -xvSpf -], run in the working directory of the process with the
    pipe as input and its own output captured.  No other process is
    launched, whatever happens later. *)
Theorem copy_from_launch_order (orig_dir : string) (filters : list string)
  (w : World) :
  launched (snd (copy_from orig_dir filters w))
  = launched w
    ++ Launch (Argv ("tar" :: map (fun f => "--exclude=" +:+ f) filters
                     ++ ["-cSpf"; "-"; "."]))
              (Some orig_dir) false None false Inherited Pipe
       :: match spawn (tar_producer orig_dir filters) None w with
          | inr _ => [Launch (Argv ["tar"; "-xvSpf"; "-"]) None false None
                             false Pipe Pipe]
          | inl _ => []
          end.
Proof.
  rewrite copy_from_world.
  destruct (spawn _ None w) as [e | p1];
    cbn [launched after_launch producer_started]; [reflexivity |].
  cbn zeta.
  destruct (spawn _ (Some p1) _) as [e | p2];
    [| destruct (p_communicate p2)];
    cbn [launched after_launch producer_started set_files];
    rewrite <- app_assoc; reflexivity.
Qed.

(** [copy_from] leaves the process as it was but for the launches and for
    what the two processes do to the file system: the working directory is
    the same (the producer is given its directory at the launch), nothing is
    logged, and the environment is untouched. *)
Theorem copy_from_quiet (orig_dir : string) (filters : list string)
  (w : World) :
  let w' := snd (copy_from orig_dir filters w) in
  proc_cwd w' = proc_cwd w
  /\ log_lines w' = log_lines w
  /\ os_environ w' = os_environ w.
Proof.
  cbn zeta. rewrite copy_from_world.
  destruct (spawn _ None w) as [e | p1]; [repeat split; reflexivity |].
  cbn zeta.
  destruct (spawn _ (Some p1) _) as [e | p2];
    [| destruct (p_communicate p2)]; repeat split; reflexivity.
Qed.

Lemma normpath_not_empty (p : string) : os_path.normpath p <> "".
Proof.
  unfold os_path.normpath.
  destruct (String.eqb p ""); [discriminate |]. cbv zeta.
  match goal with
  | |- (if String.eqb ?x "" then _ else _) <> _ =>
      destruct (String.eqb_spec x ""); [discriminate | assumption]
  end.
Qed.

(** A list that [copy_from] returns is never empty and has no empty
    string in it: its length cannot tell whether anything was copied. *)
Theorem copy_from_never_empty (orig_dir : string) (filters : list string)
  (w : World) (files : list string) :
  fst (copy_from orig_dir filters w) = inr files ->
  files <> [] /\ "" ∉ files.
Proof.
  intros Hret.
  destruct (copy_from_returns_every_line _ _ _ _ Hret)
    as (p1 & p2 & out & _ & _ & _ & ->).
  split.
  - pose proof (split_not_nil "010" out) as Hne.
    destruct (Py.split "010" out); [contradiction | discriminate].
  - intros Hin%list_elem_of_In%in_map_iff.
    destruct Hin as (p & Hp & _). exact (normpath_not_empty p Hp).
Qed.

End Wrappers.

(** ** The theorems at work on the small operating system *)

Lemma strict_call_witness :
  let r := Command__call__ (Sample.exits 3) ["x"]
             (mkState Sample.ls Sample.world0) in
  fst r = inl (CommandExecFailed None)
  /\ log_err_lines (snd r) = ["ls returned 3"; "Couldn't run 'ls -l'"].
Proof.
  destruct (strict_call_raises_iff_nonzero (Sample.exits 3) ["x"]
              (mkState Sample.ls Sample.world0)) as (_ & H & _).
  exact (H 3 ltac:(lia) eq_refl).
Defined.

Lemma lenient_call_witness :
  let r := Command_call (Sample.exits 3) ["x"]
             (mkState Sample.ls Sample.world0) in
  fst r = inr 3 /\ log_err_lines (snd r) = [].
Proof.
  destruct (lenient_call_returns_code (Sample.exits 3) ["x"]
              (mkState Sample.ls Sample.world0)) as (H & _).
  exact (H 3 eq_refl).
Defined.

Lemma last_result_field_witness :
  retcode (self (snd (Command__call__ (Sample.exits 3) ["x"]
                        (mkState Sample.ls Sample.world0)))) = 3.
Proof.
  destruct (last_result_field (Sample.exits 3) ["x"]
              (mkState Sample.ls Sample.world0)) as (H & _).
  exact (H 3 eq_refl).
Defined.

(** C7, the lenient form does not record the code: a fresh
    [Command("ls", ["-l"])], called through [call] with a child that ends
    with 0, returns 0 and still has 1 in its last-result field. *)
Lemma lenient_call_keeps_retcode :
  fst (Command_init "ls" ["-l"] false None None Sample.world0) = inr Sample.ls
  /\ fst (Command_call (Sample.exits 0) ["x"]
            (mkState Sample.ls Sample.world0)) = inr 0
  /\ retcode (self (snd (Command_call (Sample.exits 0) ["x"]
                           (mkState Sample.ls Sample.world0)))) = 1.
Proof. repeat split; reflexivity. Qed.

Lemma PristineTar_witness :
  PristineTar_init Sample.world0
  = (inl (GbpError "/usr/bin/pristine-tar not found - cannot use pristine-tar"),
     Sample.world0).
Proof.
  refine (proj1 (PristineTar_needs_executable Sample.world0 _)).
  apply (bool_decide_eq_false_1 _). reflexivity.
Defined.

Lemma GitTag_witness :
  map l_cmd (launched (world (snd (
    GitTag__call__ (Sample.exits 0) Sample.tagging
      "1.0" "Tagging %(version)s" None
      (mkState (mkGitTag (mkCommand "git" ["tag"] "Couldn't run git tag"
                            false 1 None None) false (Some "0xDEADBEEF"))
               Sample.world0)))))
  = [Argv ["git"; "tag"; "-m"; "Tagging 1.0"; "1.0"]].
Proof.
  refine (proj1 (GitTag_signing_options (Sample.exits 0) Sample.tagging
                   false (Some "0xDEADBEEF") Sample.world0 Sample.world0 _
                   "1.0" "Tagging %(version)s" None "Tagging 1.0" eq_refl)
            eq_refl _).
  reflexivity.
Defined.

Lemma copy_from_witness :
  fst (copy_from (Sample.tar_pipe "a" 0 2) "/src" [] Sample.world0)
  = inl (GbpError "Cannot copy files, pipe failed.").
Proof.
  destruct (copy_from_all_or_nothing (Sample.tar_pipe "a" 0 2) "/src" []
              Sample.world0) as (_ & _ & _ & H & _).
  refine (H _ _ "a" eq_refl eq_refl eq_refl _).
  right. simpl. lia.
Defined.



(** C3 on a run of [tar] that prints one path and a newline: the empty
    string after the newline is kept, and comes back as [.]. *)
Theorem copy_from_trailing_newline :
  fst (copy_from (Sample.tar_pipe ("a" +:+ Sample.newline) 0 0) "/src" []
         Sample.world0)
  = inr ["a"; "."].
Proof. reflexivity. Qed.

(** ** The further properties at work *)

Lemma PristineTar_commit_witness :
  let r := PristineTar_commit (Sample.exits 1) "foo_1.0.orig.tar.gz" "upstream"
             (mkState (mkCommand "/usr/bin/pristine-tar" []
                         "Couldn't run '/usr/bin/pristine-tar'" false 1
                         None None) Sample.world0) in
  fst r = inl (CommandExecFailed None)
  /\ last (log_err_lines (snd r))
     = Some ("Couldn't commit to " +:+ Py.dquote +:+ "upstream" +:+ Py.dquote).
Proof.
  destruct (PristineTar_commit_reports (Sample.exits 1)
              "foo_1.0.orig.tar.gz" "upstream" Sample.world_pt Sample.world0
              _ eq_refl) as (_ & _ & _ & HN).
  exact (HN 1 ltac:(lia) eq_refl).
Defined.

Lemma PristineTar_checkout_witness :
  let r := PristineTar_checkout (Sample.exits 1) "../foo_1.0.orig.tar.gz"
             (mkState (mkCommand "/usr/bin/pristine-tar" []
                         "Couldn't run '/usr/bin/pristine-tar'" false 1
                         None None) Sample.world0) in
  fst r = inl (CommandExecFailed None)
  /\ last (log_err_lines (snd r))
     = Some ("Couldn't checkout " +:+ Py.dquote +:+ "foo_1.0.orig.tar.gz"
             +:+ Py.dquote).
Proof.
  destruct (PristineTar_checkout_reports (Sample.exits 1)
              ".." "foo_1.0.orig.tar.gz" Sample.world_pt Sample.world0
              _ eq_refl eq_refl) as (_ & _ & _ & HN).
  exact (HN 1 ltac:(lia) eq_refl).
Defined.

Lemma DpkgSourceExtract_witness :
  exists c,
    DpkgSourceExtract_init Sample.world0 = (inr c, Sample.world0)
    /\ fst (DpkgSourceExtract__call__ (Sample.exits 2) "foo_1.0-1.dsc" "/tmp"
              (mkState c Sample.world0))
       = inl (CommandExecFailed None).
Proof.
  destruct (DpkgSourceExtract_reports (Sample.exits 2) "foo_1.0-1.dsc"
              "/tmp" Sample.world0 Sample.world0)
    as (c & Hi & _ & _ & _ & HN).
  exists c. split; [exact Hi |].
  exact (proj1 (HN 2 ltac:(lia) eq_refl)).
Defined.

Lemma GitBranch_witness :
  exists c,
    GitBranch_init Sample.world0 = (inr c, Sample.world0)
    /\ last (log_err_lines (snd (GitBranch__call__ (Sample.exits 128)
                                   "upstream" (Some "origin/upstream")
                                   (mkState c Sample.world0))))
       = Some ("Couldn't create branch " +:+ Py.dquote +:+ "upstream"
               +:+ Py.dquote).
Proof.
  destruct (GitBranch_optional_remote (Sample.exits 128) "upstream"
              (Some "origin/upstream") Sample.world0 Sample.world0)
    as (c & Hi & _ & _ & _ & HN).
  exists c. split; [exact Hi |].
  exact (proj2 (HN 128 ltac:(lia) eq_refl)).
Defined.

Lemma UnpackTarArchive_witness :
  exists o,
    UnpackTarArchive_init "foo.tar.gz" "/tmp" ["*.o"] (Some "")
      Sample.world0 = (inr o, Sample.world0)
    /\ fst (Command__call__ (Sample.exits 2) []
              (mkState (archive_command o) Sample.world0))
       = inl (CommandExecFailed None).
Proof.
  destruct (UnpackTarArchive_runs_tar (Sample.exits 2) "foo.tar.gz" "/tmp"
              ["*.o"] (Some "") Sample.world0 Sample.world0 [])
    as (o & Hi & _ & _ & _ & _ & _ & HN).
  exists o. split; [exact Hi |].
  exact (proj1 (HN 2 ltac:(lia) eq_refl)).
Defined.

Lemma PackTarArchive_witness :
  exists o,
    PackTarArchive_init "foo.tar.gz" "/tmp" "foo-1.0" [".git"] (Some "-j")
      Sample.world0 = (inr o, Sample.world0)
    /\ fst (Command__call__ (Sample.exits 2) []
              (mkState (archive_command o) Sample.world0))
       = inl (CommandExecFailed None).
Proof.
  destruct (PackTarArchive_runs_tar (Sample.exits 2) "foo.tar.gz" "/tmp"
              "foo-1.0" [".git"] (Some "-j") Sample.world0 Sample.world0 [])
    as (o & Hi & _ & _ & _ & _ & _ & HN).
  exists o. split; [exact Hi |].
  exact (proj1 (HN 2 ltac:(lia) eq_refl)).
Defined.

Lemma Dch_witness :
  exists c,
    Dch_init "1.0-1" (Some "") Sample.world0 = (inr c, Sample.world0)
    /\ last (log_err_lines (snd (Command__call__ (Sample.exits 1) []
                                   (mkState c Sample.world0))))
       = Some "Dch failed.".
Proof.
  destruct (Dch_optional_message (Sample.exits 1) "1.0-1" (Some "")
              Sample.world0 Sample.world0 [])
    as (c & Hi & _ & _ & _ & HN).
  exists c. split; [exact Hi |].
  exact (proj2 (HN 1 ltac:(lia) eq_refl)).
Defined.

Lemma GitFetch_witness :
  exists c,
    GitFetch_init (Some "origin") Sample.world0 = (inr c, Sample.world0)
    /\ fst (Command__call__ (Sample.exits 1) []
              (mkState c Sample.world0))
       = inl (CommandExecFailed None).
Proof.
  destruct (GitFetch_optional_remote (Sample.exits 1) (Some "origin")
              Sample.world0 Sample.world0 [])
    as (c & Hi & _ & _ & _ & HN).
  exists c. split; [exact Hi |].
  exact (proj1 (HN 1 ltac:(lia) eq_refl)).
Defined.

Lemma GitMerge_witness :
  exists c,
    GitMerge_init "upstream" false Sample.world0 = (inr c, Sample.world0)
    /\ last (log_err_lines (snd (Command__call__ (Sample.exits 1) []
                                   (mkState c Sample.world0))))
       = Some ("Couldn't merge from " +:+ Py.dquote +:+ "upstream"
               +:+ Py.dquote).
Proof.
  destruct (GitMerge_summary_option (Sample.exits 1) "upstream" false
              Sample.world0 Sample.world0 [])
    as (c & Hi & _ & _ & _ & HN).
  exists c. split; [exact Hi |].
  exact (proj2 (HN 1 ltac:(lia) eq_refl)).
Defined.

Lemma plain_wrappers_witness :
  exists o,
    RemoveTree_init "/tmp/build" Sample.world0 = (inr o, Sample.world0)
    /\ last (log_err_lines (snd (Command__call__ (Sample.exits 1) []
                                   (mkState (rm_command o) Sample.world0))))
       = Some ("Couldn't remove " +:+ Py.dquote +:+ "/tmp/build"
               +:+ Py.dquote).
Proof.
  destruct (plain_wrappers_run (Sample.exits 1) "/tmp/build" "foo.zip" "/tmp"
              Sample.world0 Sample.world0 [] 1 ltac:(lia))
    as ((o & Hi & _ & _ & HN) & _).
  exists o. split; [exact Hi |].
  exact (proj2 (HN eq_refl)).
Defined.

Lemma CatenateTarArchive_witness :
  exists o,
    CatenateTarArchive_init "foo.tar" false None None Sample.world0
    = (inr o, Sample.world0)
    /\ last (log_err_lines (snd (CatenateTarArchive__call__ (Sample.exits 2)
                                   "bar.tar" (mkState o Sample.world0))))
       = Some "Couldn't run 'tar -A -f foo.tar'".
Proof.
  destruct (CatenateTarArchive_appends (Sample.exits 2) "foo.tar" "bar.tar"
              false None None Sample.world0 Sample.world0)
    as (o & Hi & _ & _ & _ & HN).
  exists o. split; [exact Hi |].
  exact (proj2 (HN 2 ltac:(lia) eq_refl)).
Defined.

Lemma GitTag_unrendered_witness :
  let r := GitTag__call__ (Sample.exits 0) Sample.tagging
             "1.0" "Tagging %(release)s" None
             (mkState (mkGitTag Sample.ls true None) Sample.world0) in
  fst r = inl (ValueError "unsupported format string")
  /\ world (snd r) = Sample.world0.
Proof.
  destruct (GitTag_unrendered_message (Sample.exits 0) Sample.tagging
              (mkGitTag Sample.ls true None) "1.0" "Tagging %(release)s" None
              (ValueError "unsupported format string") Sample.world0
              (fun _ => eq_refl)) as (H1 & H2 & _).
  exact (conj H1 H2).
Defined.

Lemma GitTag_failure_witness :
  exists t,
    GitTag_init true None Sample.world0 = (inr t, Sample.world0)
    /\ let r := GitTag__call__ Sample.git_fails Sample.tagging
                  "1.0" "Tagging %(version)s" None
                  (mkState t Sample.world0) in
       fst r = inl (CommandExecFailed None)
       /\ last (log_err_lines (snd r))
          = Some ("Couldn't tag " +:+ Py.dquote +:+ "1.0" +:+ Py.dquote)
       /\ retcode (tag_command (self (snd r))) = 128.
Proof.
  eexists. split; [reflexivity |].
  destruct (GitTag_failure_message Sample.git_fails Sample.tagging
              (mkGitTag (mkCommand "git" ["tag"] "Couldn't run git tag"
                           false 1 None None) true None)
              "1.0" "Tagging %(version)s" None "Tagging 1.0" Sample.world0
              (fun _ => eq_refl)) as (a & Hl & HN).
  exact (HN 128 ltac:(lia) eq_refl).
Defined.


Lemma RunAtCommand_chdir_fails_witness :
  RunAtCommand__call__ (Sample.exits 0) "nowhere/.." []
    (mkState Sample.ls Sample.world0)
  = (inl (OSError "[Errno 2] No such file or directory: 'nowhere/..'"),
     mkState Sample.ls Sample.world0).
Proof.
  refine (RunAtCommand_chdir_fails (Sample.exits 0) "nowhere/.." os.ENOENT
            [] (mkState Sample.ls Sample.world0) _ _).
  - split; [reflexivity | split; reflexivity].
  - reflexivity.
Defined.

Lemma RunAtCommand_too_many_lists_witness :
  RunAtCommand__call__ (Sample.exits 0) "/tmp" [["a"]; ["b"]; ["c"]]
    (mkState Sample.ls Sample.world0)
  = (inl (TypeError "list() takes at most 1 argument (3 given)"),
     mkState Sample.ls Sample.world0).
Proof.
  refine (RunAtCommand_too_many_lists (Sample.exits 0) "/tmp" "/tmp" ["a"]
            ["b"] [["c"]] (mkState Sample.ls Sample.world0) _ _).
  - split; [reflexivity | split; reflexivity].
  - reflexivity.
Defined.

Lemma copy_from_never_empty_witness :
  ["."] <> [] /\ "" ∉ ["."].
Proof.
  exact (copy_from_never_empty (Sample.tar_pipe "" 0 0) "/src" []
           Sample.world0 ["."] eq_refl).
Defined.

(** ** The doctests of the module, and a few runs *)

Example doctest_strict_true :
  fst (new_then (Command_init "/bin/true" [] false None None)
         (Command__call__ Sample.doctest_os ["foo"; "bar"]) Sample.world0)
  = inr tt.
Proof. reflexivity. Qed.

Example doctest_strict_missing :
  fst (new_then (Command_init "/foo/bar" [] false None None)
         (Command__call__ Sample.doctest_os []) Sample.world0)
  = inl (CommandExecFailed None).
Proof. reflexivity. Qed.

Example doctest_lenient_true :
  fst (new_then (Command_init "/bin/true" [] false None None)
         (Command_call Sample.doctest_os ["foo"; "bar"]) Sample.world0)
  = inr 0.
Proof. reflexivity. Qed.

Example doctest_lenient_missing :
  fst (new_then (Command_init "/foo/bar" [] false None None)
         (Command_call Sample.doctest_os ["foo"; "bar"]) Sample.world0)
  = inl (CommandExecFailed
           (Some "Execution failed: [Errno 2] No such file or directory")).
Proof. reflexivity. Qed.

Example strict_missing_log :
  log_lines (snd (new_then (Command_init "/foo/bar" [] false None None)
                    (Command__call__ Sample.doctest_os ["it's"])
                    Sample.world0))
  = [(Debug, "/foo/bar [] [" +:+ Py.dquote +:+ "it's" +:+ Py.dquote +:+ "]");
     (Err, "Execution failed: [Errno 2] No such file or directory");
     (Err, "Couldn't run '/foo/bar'")].
Proof. reflexivity. Qed.

Example shell_mode_line :
  map l_cmd (launched (snd (
    new_then (Command_init "debuild" ["-i"; "-I"] true None None)
      (Command_call (Sample.exits 0) ["-us"]) Sample.world0)))
  = [ShellLine "debuild -i -I -us"].
Proof. reflexivity. Qed.

Example normpath_runs :
  map os_path.normpath ["A//B"; "A/./B"; "A/foo/../B"; "./sub/b.txt"; "";
                        "//x"; "///x"; "/.."; "../.."]
  = ["A/B"; "A/B"; "A/B"; "sub/b.txt"; "."; "//x"; "/x"; "/"; "../.."].
Proof. reflexivity. Qed.

Example RunAtCommand_missing_dir :
  let r := RunAtCommand__call__ (Sample.exits 0) "nowhere" []
             (mkState Sample.ls Sample.world0) in
  fst r = inl (OSError "[Errno 2] No such file or directory: 'nowhere'")
  /\ proc_cwd (world (snd r)) = "/src"
  /\ launched (world (snd r)) = [].
Proof. repeat split; reflexivity. Qed.

Example RunAtCommand_two_lists :
  let r := RunAtCommand__call__ (Sample.exits 0) ".." [["a"]; ["b"]]
             (mkState Sample.ls Sample.world0) in
  fst r = inl (TypeError "list() takes at most 1 argument (2 given)")
  /\ proc_cwd (world (snd r)) = "/src".
Proof. repeat split; reflexivity. Qed.

Example copy_from_without_tar :
  fst (copy_from Sample.no_tar "/src" ["*.o"] Sample.world0)
  = inl (GbpError "Cannot copy files: [Errno 2] No such file or directory").
Proof. reflexivity. Qed.

Example copy_from_launches :
  map l_cmd (launched (snd (copy_from (Sample.tar_pipe "a" 0 0) "/src"
                              ["*.o"; ".git"] Sample.world0)))
  = [Argv ["tar"; "--exclude=*.o"; "--exclude=.git"; "-cSpf"; "-"; "."];
     Argv ["tar"; "-xvSpf"; "-"]].
Proof. reflexivity. Qed.

Example GitTag_signed_with_key :
  map l_cmd (launched (snd (
    new_then (GitTag_init true (Some "0xDEADBEEF"))
      (GitTag__call__ (Sample.exits 0) Sample.tagging
         "1.0" "Tagging %(version)s" (Some "HEAD~1")) Sample.world0)))
  = [Argv ["git"; "tag"; "-u"; "0xDEADBEEF"; "-m"; "Tagging 1.0"; "1.0";
           "HEAD~1"]].
Proof. reflexivity. Qed.

Example chdir_runs :
  map (fun d => fst (os.chdir d Sample.world0))
      [".."; "../tmp/."; "/tmp//"; ""; "nowhere"; "nowhere/.."; "setup.py";
       "/src/setup.py/.."; "/root"; "/root/.."]
  = [inr tt; inr tt; inr tt;
     inl (OSError "[Errno 2] No such file or directory: ''");
     inl (OSError "[Errno 2] No such file or directory: 'nowhere'");
     inl (OSError "[Errno 2] No such file or directory: 'nowhere/..'");
     inl (OSError "[Errno 20] Not a directory: 'setup.py'");
     inl (OSError "[Errno 20] Not a directory: '/src/setup.py/..'");
     inl (OSError "[Errno 13] Permission denied: '/root'");
     inl (OSError "[Errno 13] Permission denied: '/root/..'")].
Proof. reflexivity. Qed.

Example chdir_lands :
  map (fun d => proc_cwd (snd (os.chdir d Sample.world0)))
      [".."; "../tmp/."; "/tmp//"; "../.."; "nowhere"]
  = ["/"; "/tmp"; "/tmp"; "/"; "/src"].
Proof. reflexivity. Qed.

Example child_changes_executables :
  fs_exec (world (snd (Command__call__ Sample.rm_src []
                         (mkState Sample.ls Sample.world0)))) = [].
Proof. reflexivity. Qed.

Example copy_from_changes_files :
  let untar : launch -> option proc -> World -> exn + proc :=
    fun _ up _ =>
      match up with
      | None => inr (Proc (inr "") 0 id)
      | Some _ =>
          inr (Proc (inr "sub/") 0
                 (fun f => mkFiles (f_dirs f ++ ["/src/sub"]) (f_locked f)
                                   (f_others f) (f_exec f)))
      end in
  fs_dirs (snd (copy_from untar "/tmp" [] Sample.world0))
  = ["/"; "/bin"; "/root"; "/src"; "/tmp"; "/src/sub"].
Proof. reflexivity. Qed.
